(** * led_color: sRGB colour to LED mixing ratio

    A shallow embedding of [led_color.py] and the properties of its
    colour pipeline:

      rgb_to_xyz  ->  xyz_to_xyy  ->  xyy_to_rgb_mixing_ratio
                  ->  (gamut check of main)  ->  choose_luminous_intensities

    Numbers.  The script computes with binary64 floats.  Here a float is an
    exact rational, or one of the two infinities, or NaN: rounding, overflow
    and the sign of zero are not part of the model, the outcome of a
    division by zero is.  Two divisions occur in the script and they differ
    there: the division of numpy arrays yields inf or nan and goes on, the
    division of Python floats raises [ZeroDivisionError].  Where a statement
    turns on the last digit, the lines in question are also given in
    binary64 itself, in [Binary64].

    Output.  Of [print_result] the values are kept and the text is not;
    what is kept of the formatting is that '%d' raises on a value that is
    no number: [ValueError] on NaN, [OverflowError] on an infinity. *)

From Stdlib Require Import ZArith QArith Qcanon Qcabs Bool String List Lia.
Import ListNotations.

Open Scope Qc_scope.

(** ** Rationals: boolean tests *)

Definition Qc_ltb (a b : Qc) : bool :=
  match a ?= b with Lt => true | _ => false end.

Definition Qc_leb (a b : Qc) : bool :=
  match a ?= b with Gt => false | _ => true end.

Definition Qc_is_zero (a : Qc) : bool := Qc_eq_bool a 0.

(** ** Floats *)

Inductive pyfloat : Type :=
| Fin (q : Qc)
| Inf (negative : bool)
| NaN.

Declare Scope float_scope.
Delimit Scope float_scope with F.
Bind Scope float_scope with pyfloat.

Module Float.

Definition of_Z (z : Z) : pyfloat := Fin (Q2Qc (inject_Z z)).

Definition is_zero (a : pyfloat) : bool :=
  match a with Fin q => Qc_is_zero q | _ => false end.

Definition is_finite (a : pyfloat) : bool :=
  match a with Fin _ => true | _ => false end.

(** The sign bit; a zero is taken as positive. *)
Definition signbit (a : pyfloat) : bool :=
  match a with
  | Fin q => Qc_ltb q 0
  | Inf s => s
  | NaN => false
  end.

Definition neg (a : pyfloat) : pyfloat :=
  match a with
  | Fin q => Fin (- q)
  | Inf s => Inf (negb s)
  | NaN => NaN
  end.

Definition add (a b : pyfloat) : pyfloat :=
  match a, b with
  | Fin p, Fin q => Fin (p + q)
  | Fin _, Inf s | Inf s, Fin _ => Inf s
  | Inf s, Inf t => if Bool.eqb s t then Inf s else NaN
  | _, _ => NaN
  end.

Definition sub (a b : pyfloat) : pyfloat := add a (neg b).

Definition mul (a b : pyfloat) : pyfloat :=
  match a, b with
  | Fin p, Fin q => Fin (p * q)
  | Fin p, Inf s | Inf s, Fin p =>
      if Qc_is_zero p then NaN else Inf (xorb s (Qc_ltb p 0))
  | Inf s, Inf t => Inf (xorb s t)
  | _, _ => NaN
  end.

(** IEEE division: what numpy computes, and what Python computes once
    it has checked the divisor. *)
Definition div (a b : pyfloat) : pyfloat :=
  match a, b with
  | Fin p, Fin q =>
      if Qc_is_zero q
      then (if Qc_is_zero p then NaN else Inf (Qc_ltb p 0))
      else Fin (p / q)
  | Fin _, Inf _ => Fin 0
  | Inf s, Fin q => Inf (xorb s (Qc_ltb q 0))
  | _, _ => NaN
  end.

Definition ltb (a b : pyfloat) : bool :=
  match a, b with
  | Fin p, Fin q => Qc_ltb p q
  | Fin _, Inf s => negb s
  | Inf s, Fin _ => s
  | Inf s, Inf t => s && negb t
  | _, _ => false
  end.

Definition leb (a b : pyfloat) : bool :=
  match a, b with
  | Fin p, Fin q => Qc_leb p q
  | Fin _, Inf s => negb s
  | Inf s, Fin _ => s
  | Inf s, Inf t => s || negb t
  | _, _ => false
  end.

End Float.

Infix "+" := Float.add : float_scope.
Infix "-" := Float.sub : float_scope.
Infix "*" := Float.mul : float_scope.
Infix "/" := Float.div : float_scope.
Infix "<?" := Float.ltb : float_scope.
Infix "<=?" := Float.leb : float_scope.

(** A decimal literal of the script. *)
Definition lit (q : Q) : pyfloat := Fin (Q2Qc q).

(** ** Exceptions *)

Inductive exn : Type :=
| ZeroDivisionError
| ValueError
| OverflowError
| Exception (msg : string).

Inductive outcome (A : Type) : Type :=
| Returns (a : A)
| Raises (e : exn).

Arguments Returns {A} a.
Arguments Raises {A} e.

Definition bind {A B : Type} (m : outcome A) (k : A -> outcome B) : outcome B :=
  match m with
  | Returns a => k a
  | Raises e => Raises e
  end.

Notation "x <- m ;; k" := (bind m (fun x => k))
  (at level 61, m at next level, right associativity).

(** Division of two Python floats. *)
Definition py_div (a b : pyfloat) : outcome pyfloat :=
  if Float.is_zero b then Raises ZeroDivisionError else Returns (a / b)%F.

Infix "/!" := py_div (at level 40, left associativity).

(** ** Arrays

    Every array of the script has three entries; [rgb_to_xyz] and
    [xyz_to_xyy] hold them as a 3x1 column. *)

Definition vec3 : Type := (pyfloat * pyfloat * pyfloat)%type.

Definition item (v : vec3) (i : nat) : pyfloat :=
  match v, i with
  | (a, _, _), O => a
  | (_, b, _), S O => b
  | (_, _, c), _ => c
  end.

Definition numpy_sum (v : vec3) : pyfloat := (item v 0 + item v 1 + item v 2)%F.

Definition vec3_map (f : pyfloat -> pyfloat) (v : vec3) : vec3 :=
  (f (item v 0), f (item v 1), f (item v 2)).

Definition numpy_divide (v : vec3) (d : pyfloat) : vec3 :=
  vec3_map (fun a => a / d)%F v.

Definition scale (k : pyfloat) (v : vec3) : vec3 :=
  vec3_map (fun a => k * a)%F v.

Definition row_dot (row v : vec3) : pyfloat :=
  (item row 0 * item v 0 + item row 1 * item v 1 + item row 2 * item v 2)%F.

Definition numpy_dot (m : vec3 * vec3 * vec3) (v : vec3) : vec3 :=
  let '(r0, r1, r2) := m in (row_dot r0 v, row_dot r1 v, row_dot r2 v).

(** ** Constants of the script *)

Record Primaries : Type := {
  PRIMARY_RED_X : Qc;
  PRIMARY_RED_Y : Qc;
  PRIMARY_GREEN_X : Qc;
  PRIMARY_GREEN_Y : Qc;
  PRIMARY_BLUE_X : Qc;
  PRIMARY_BLUE_Y : Qc
}.

(** The module-level primaries: the LEDs of the datasheet. *)
Definition led_primaries : Primaries := {|
  PRIMARY_RED_X := Q2Qc 0.700606061;
  PRIMARY_RED_Y := Q2Qc 0.299300699;
  PRIMARY_GREEN_X := Q2Qc 0.154722061;
  PRIMARY_GREEN_Y := Q2Qc 0.805863545;
  PRIMARY_BLUE_X := Q2Qc 0.109594324;
  PRIMARY_BLUE_Y := Q2Qc 0.08684251
|}.

(** The primaries of the module docstring's test. *)
Definition docstring_primaries : Primaries := {|
  PRIMARY_RED_X := Q2Qc 0.67;
  PRIMARY_RED_Y := Q2Qc 0.33;
  PRIMARY_GREEN_X := Q2Qc 0.21;
  PRIMARY_GREEN_Y := Q2Qc 0.71;
  PRIMARY_BLUE_X := Q2Qc 0.14;
  PRIMARY_BLUE_Y := Q2Qc 0.08
|}.

Definition RED_LUMINOUS_INTENSITY : pyfloat := lit 0.105.
Definition GREEN_LUMINOUS_INTENSITY : pyfloat := lit 0.330.
Definition BLUE_LUMINOUS_INTENSITY : pyfloat := lit 0.200.

Definition MAX_8_BIT : pyfloat := Float.of_Z 255.

Definition COMPAND_V_MIN : pyfloat := lit 0.04045.
Definition COMPAND_A : pyfloat := lit 12.92.
Definition COMPAND_B : pyfloat := lit 0.055.
Definition COMPAND_C : pyfloat := lit 1.055.
Definition COMPAND_POW : pyfloat := lit 2.4.
Definition COMPAND_MAGIC_NUM : pyfloat := Float.of_Z 100.

Definition RGB_TO_XYZ : vec3 * vec3 * vec3 :=
  ((lit 0.4124564, lit 0.3575761, lit 0.1804375),
   (lit 0.2126729, lit 0.7151522, lit 0.0721750),
   (lit 0.0193339, lit 0.1191920, lit 0.9503041)).

(** ** The pipeline *)

Section Companding.

(** [pow] on floats with a fractional exponent has no rational value;
    the decoder is parametrised by it. *)
Variable pow : pyfloat -> pyfloat -> pyfloat.

Definition inverse_companding (v : pyfloat) : pyfloat :=
  if (v <=? COMPAND_V_MIN)%F
  then (v / COMPAND_A)%F
  else pow ((v + COMPAND_B) / COMPAND_C)%F COMPAND_POW.

(** The body of the loop of [rgb_to_xyz], on one normalised channel. *)
Definition decode_channel (v : pyfloat) : pyfloat :=
  (inverse_companding v * COMPAND_MAGIC_NUM)%F.

Definition rgb_to_xyz (red green blue : Z) : vec3 :=
  let rgb_arr : vec3 := (Float.of_Z red, Float.of_Z green, Float.of_Z blue) in
  let rgb_arr := numpy_divide rgb_arr MAX_8_BIT in
  let rgb_arr := vec3_map decode_channel rgb_arr in
  numpy_dot RGB_TO_XYZ rgb_arr.

End Companding.

Definition xyz_to_xyy (xyz : vec3) : vec3 :=
  let x := (item xyz 0 / numpy_sum xyz)%F in
  let y := (item xyz 1 / numpy_sum xyz)%F in
  let luminance := item xyz 1 in
  (x, y, luminance).

Definition calc_ratio_of_mixtures (y1 y2 y3 : pyfloat) : outcome pyfloat :=
  q <- y2 /! y1 ;;
  ((Float.of_Z (-1) * q) * (y1 - y3))%F /! (y2 - y3)%F.

(** The intercept of the line through green and the target: the line of
    the script, the line it keeps in a comment above it (the formula of the
    article, held to be a typo there), and the intercept read off at the
    target point itself. *)
Definition intercept_green (P : Primaries) (cie_xyy : vec3) (slope_gd : pyfloat)
  : pyfloat :=
  (Fin (PRIMARY_GREEN_Y P) - slope_gd * Fin (PRIMARY_GREEN_X P))%F.

Definition intercept_article (P : Primaries) (cie_xyy : vec3) (slope_gd : pyfloat)
  : pyfloat :=
  (Fin (PRIMARY_GREEN_Y P) - slope_gd * item cie_xyy 0)%F.

Definition intercept_target (P : Primaries) (cie_xyy : vec3) (slope_gd : pyfloat)
  : pyfloat :=
  (item cie_xyy 1 - slope_gd * item cie_xyy 0)%F.

(** The solver, for a given way to compute [const_gd]. *)
Definition mixing_ratio_with
    (intercept : Primaries -> vec3 -> pyfloat -> pyfloat)
    (P : Primaries) (cie_xyy : vec3) : outcome vec3 :=
  let RX := Fin (PRIMARY_RED_X P) in
  let RY := Fin (PRIMARY_RED_Y P) in
  let GX := Fin (PRIMARY_GREEN_X P) in
  let GY := Fin (PRIMARY_GREEN_Y P) in
  let BX := Fin (PRIMARY_BLUE_X P) in
  let BY := Fin (PRIMARY_BLUE_Y P) in
  slope_rb <- (RY - BY)%F /! (RX - BX)%F ;;
  let const_rb := (BY - slope_rb * BX)%F in
  slope_gd <- (GY - item cie_xyy 1)%F /! (GX - item cie_xyy 0)%F ;;
  let const_gd := intercept P cie_xyy slope_gd in
  purple_x <- (const_rb - const_gd)%F /! (slope_gd - slope_rb)%F ;;
  let purple_y := (slope_rb * purple_x + const_rb)%F in
  ratio_br <- calc_ratio_of_mixtures BY RY purple_y ;;
  ratio_pg <- calc_ratio_of_mixtures purple_y GY (item cie_xyy 1) ;;
  red_fraction <- ratio_br /! (ratio_br + Fin 1)%F ;;
  blue_fraction <- Fin 1 /! (ratio_br + Fin 1)%F ;;
  red_ratio <- red_fraction /! blue_fraction ;;
  green_ratio <- ratio_pg /! blue_fraction ;;
  blue_ratio <- blue_fraction /! blue_fraction ;;
  Returns (red_ratio, green_ratio, blue_ratio).

Definition xyy_to_rgb_mixing_ratio : Primaries -> vec3 -> outcome vec3 :=
  mixing_ratio_with intercept_green.

(** [sum] of Python, on a tuple: it starts from the integer 0. *)
Definition py_sum (v : vec3) : pyfloat :=
  (Fin 0 + item v 0 + item v 1 + item v 2)%F.

(** The relative intensities that [print_result] derives for its last
    row, before formatting. *)
Definition relative_intensity_percent (rgb_intensities : vec3) : vec3 :=
  ((item rgb_intensities 0 / RED_LUMINOUS_INTENSITY) * Float.of_Z 100,
   (item rgb_intensities 1 / GREEN_LUMINOUS_INTENSITY) * Float.of_Z 100,
   (item rgb_intensities 2 / BLUE_LUMINOUS_INTENSITY) * Float.of_Z 100)%F.

(** ['%d' % value]: the conversion to an integer fails on NaN and on an
    infinity. *)
Definition format_d (value : pyfloat) : outcome unit :=
  match value with
  | Fin _ => Returns tt
  | Inf _ => Raises OverflowError
  | NaN => Raises ValueError
  end.

(** [print_result].  The rows of '%.3f' and of [round] and '%.2f' take any
    float; the two rows of '%d', the percentages and the relative
    intensities, may raise, in the order of their arguments. *)
Definition print_result (color_mixing_ratio rgb_percentages rgb_intensities : vec3)
  : outcome unit :=
  let relative := relative_intensity_percent rgb_intensities in
  _ <- format_d (item rgb_percentages 0 * Float.of_Z 100)%F ;;
  _ <- format_d (item rgb_percentages 1 * Float.of_Z 100)%F ;;
  _ <- format_d (item rgb_percentages 2 * Float.of_Z 100)%F ;;
  _ <- format_d (item relative 0) ;;
  _ <- format_d (item relative 1) ;;
  _ <- format_d (item relative 2) ;;
  Returns tt.

(** [choose_luminous_intensities] returns nothing and prints; here it
    yields what it has handed to [print_result], the percentages and the
    intensities, once [print_result] has returned. *)
Definition choose_luminous_intensities (color_mixing_ratio : vec3)
  : outcome (vec3 * vec3) :=
  red_percentage <- item color_mixing_ratio 0 /! py_sum color_mixing_ratio ;;
  green_percentage <- item color_mixing_ratio 1 /! py_sum color_mixing_ratio ;;
  blue_percentage <- item color_mixing_ratio 2 /! py_sum color_mixing_ratio ;;
  let red_intensity := RED_LUMINOUS_INTENSITY in
  per_green <- red_intensity /! red_percentage ;;
  let green_intensity := (per_green * green_percentage)%F in
  per_blue <- red_intensity /! red_percentage ;;
  let blue_intensity := (per_blue * blue_percentage)%F in
  let rgb_percentages := (red_percentage, green_percentage, blue_percentage) in
  let rgb_intensities := (red_intensity, green_intensity, blue_intensity) in
  _ <- print_result color_mixing_ratio rgb_percentages rgb_intensities ;;
  Returns (rgb_percentages, rgb_intensities).

(** [any(map(lambda x: x < 0, color_mixing_ratio))] *)
Definition any_negative (color_mixing_ratio : vec3) : bool :=
  existsb (fun x => (x <? Fin 0)%F)
    [item color_mixing_ratio 0; item color_mixing_ratio 1;
     item color_mixing_ratio 2].

Definition imaginary_color : exn :=
  Exception "You've chosen an imaginary color given your primaries!".

(** The part of [main] that follows the check of the ratio. *)
Definition gamut_gate (color_mixing_ratio : vec3) : outcome (vec3 * vec3) :=
  if any_negative color_mixing_ratio
  then Raises imaginary_color
  else choose_luminous_intensities color_mixing_ratio.

Section Main.

Variable pow : pyfloat -> pyfloat -> pyfloat.

(** [main], from the three bytes that [struct.unpack] yields. *)
Definition main (red green blue : Z) : outcome (vec3 * vec3) :=
  let cie_xyz := rgb_to_xyz pow red green blue in
  let cie_xyy := xyz_to_xyy cie_xyz in
  color_mixing_ratio <- xyy_to_rgb_mixing_ratio led_primaries cie_xyy ;;
  gamut_gate color_mixing_ratio.

End Main.

(** ** Notions used by the statements *)

(** Structural equality of floats and of arrays, as booleans: closed
    equations are settled by evaluating them. *)
Definition same_float (a b : pyfloat) : bool :=
  match a, b with
  | Fin p, Fin q => Qc_eq_bool p q
  | Inf s, Inf t => Bool.eqb s t
  | NaN, NaN => true
  | _, _ => false
  end.

Definition same_vec3 (v w : vec3) : bool :=
  same_float (item v 0) (item w 0) && same_float (item v 1) (item w 1)
  && same_float (item v 2) (item w 2).

(** Tolerances, relative and absolute. *)
Definition within_rel (tol value expected : Qc) : Prop :=
  Qcabs (value - expected) <= tol * Qcabs expected.

Definition within_abs (tol value expected : Qc) : Prop :=
  Qcabs (value - expected) <= tol.

Definition tolerance : Qc := Q2Qc 0.001.

(** The white point of the docstring, and the ratio it expects there. *)
Definition D65_x : Qc := Q2Qc 0.3128.
Definition D65_y : Qc := Q2Qc 0.3292.

Definition D65 : vec3 := (Fin D65_x, Fin D65_y, Fin 1).

Definition expected_red : Qc := Q2Qc 0.7348.
Definition expected_green : Qc := Q2Qc 1.53696.
Definition expected_blue : Qc := Q2Qc 0.265.

(** The slope of the line from green to the white point, with the
    primaries of the docstring. *)
Definition D65_slope_gd : pyfloat :=
  Fin ((PRIMARY_GREEN_Y docstring_primaries - D65_y)
       / (PRIMARY_GREEN_X docstring_primaries - D65_x)).

(** One channel, as [rgb_to_xyz] treats it: normalised by [MAX_8_BIT],
    decoded, scaled by [COMPAND_MAGIC_NUM]. *)
Definition decode (pow : pyfloat -> pyfloat -> pyfloat) (channel_value : Z)
  : pyfloat :=
  decode_channel pow (Float.of_Z channel_value / MAX_8_BIT)%F.

(** The channel values: 0 .. 255. *)
Definition channel_values : list Z := map Z.of_nat (seq 0 256).

(** The test of [inverse_companding], on the channel value c. *)
Definition takes_linear_branch (c : Z) : bool :=
  Qc_leb (Q2Qc (inject_Z c) / Q2Qc 255) (Q2Qc 0.04045).

(** A power function for closed examples: exact at base 1, the only base
    that the examples raise to a power. *)
Definition pow_at_one (base exponent : pyfloat) : pyfloat := base.

(** The tests of the gamut check, on one component. *)
Definition negative (a : pyfloat) : Prop := (a <? Fin 0)%F = true.

Definition non_negative (a : pyfloat) : Prop := (Fin 0 <=? a)%F = true.

(** The ratios of two colours with the LEDs of the script: of white,
    which is inside their triangle, and of the blue of sRGB, which is
    not. *)
Definition white_ratio : vec3 :=
  (Fin (Q2Qc (40973514605257540242741188959549
              # 15859329045253597077827068829702)),
   Fin (Q2Qc (244863624142877445858245426632247
              # 47577987135760791233481206489106)),
   Fin 1).

Definition srgb_blue_ratio : vec3 :=
  (Fin (Q2Qc (5448009281628506980628526316201
              # 21391519173345849717695539018798)),
   Fin (Q2Qc (-11850148181942832169899065334999
              # 21391519173345849717695539018798)),
   Fin 1).

(** The rating of the red LED, as a rational. *)
Definition red_rating : Qc := Q2Qc 0.105.

(** ** The solver in rationals

    The intermediate values of [xyy_to_rgb_mixing_ratio] on a finite
    target (x, y), line by line, and the denominators it divides by, in
    the order in which it meets them. *)

Module Exact.

Definition minus_one : Qc := Q2Qc (inject_Z (-1)).

Definition slope_rb (P : Primaries) : Qc :=
  (PRIMARY_RED_Y P - PRIMARY_BLUE_Y P) / (PRIMARY_RED_X P - PRIMARY_BLUE_X P).

Definition const_rb (P : Primaries) : Qc :=
  PRIMARY_BLUE_Y P - slope_rb P * PRIMARY_BLUE_X P.

Definition slope_gd (P : Primaries) (x y : Qc) : Qc :=
  (PRIMARY_GREEN_Y P - y) / (PRIMARY_GREEN_X P - x).

Definition const_gd (P : Primaries) (x y : Qc) : Qc :=
  PRIMARY_GREEN_Y P - slope_gd P x y * PRIMARY_GREEN_X P.

Definition purple_x (P : Primaries) (x y : Qc) : Qc :=
  (const_rb P - const_gd P x y) / (slope_gd P x y - slope_rb P).

Definition purple_y (P : Primaries) (x y : Qc) : Qc :=
  slope_rb P * purple_x P x y + const_rb P.

Definition ratio_of_mixtures (y1 y2 y3 : Qc) : Qc :=
  minus_one * (y2 / y1) * (y1 - y3) / (y2 - y3).

Definition ratio_br (P : Primaries) (x y : Qc) : Qc :=
  ratio_of_mixtures (PRIMARY_BLUE_Y P) (PRIMARY_RED_Y P) (purple_y P x y).

Definition ratio_pg (P : Primaries) (x y : Qc) : Qc :=
  ratio_of_mixtures (purple_y P x y) (PRIMARY_GREEN_Y P) y.

Definition denominators (P : Primaries) (x y : Qc) : list Qc :=
  [ PRIMARY_RED_X P - PRIMARY_BLUE_X P;
    PRIMARY_GREEN_X P - x;
    slope_gd P x y - slope_rb P;
    PRIMARY_BLUE_Y P;
    PRIMARY_RED_Y P - purple_y P x y;
    purple_y P x y;
    PRIMARY_GREEN_Y P - y;
    ratio_br P x y + 1 ].

End Exact.

From Stdlib Require Import Ascii Lqa.
From Stdlib Require Floats Uint63.

(** ** The solver in binary64

    The same lines with the floats of the machine: every operation is
    rounded to the nearest double, a literal is the double nearest to its
    decimal, and the division of Python raises on a divisor equal to 0. *)

Module Binary64.

Declare Scope b64_scope.
Delimit Scope b64_scope with b64.

Definition float : Set := PrimFloat.float.

Bind Scope b64_scope with float.

Definition add (a b : float) : float := PrimFloat.add a b.
Definition sub (a b : float) : float := PrimFloat.sub a b.
Definition mul (a b : float) : float := PrimFloat.mul a b.
Definition div (a b : float) : float := PrimFloat.div a b.
Definition eqb (a b : float) : bool := PrimFloat.eqb a b.
Definition ltb (a b : float) : bool := PrimFloat.ltb a b.

Infix "+" := add : b64_scope.
Infix "-" := sub : b64_scope.
Infix "*" := mul : b64_scope.
Infix "/" := div : b64_scope.
Infix "=?" := eqb : b64_scope.
Infix "<?" := ltb : b64_scope.

(** An integer of the script, of absolute value below 2^53. *)
Definition of_Z (z : Z) : float :=
  if (z <? 0)%Z then PrimFloat.opp (PrimFloat.of_uint63 (Uint63.of_Z (- z)))
  else PrimFloat.of_uint63 (Uint63.of_Z z).

(** The double nearest to digits / 10^places, for a literal of the script
    with that many decimal places. *)
Definition literal (digits : Z) (places : Z) : float :=
  (of_Z digits / of_Z (10 ^ places))%b64.

Definition py_div (a b : float) : outcome float :=
  if (b =? of_Z 0)%b64 then Raises ZeroDivisionError else Returns (a / b)%b64.

Record Primaries : Type := {
  PRIMARY_RED_X : float;
  PRIMARY_RED_Y : float;
  PRIMARY_GREEN_X : float;
  PRIMARY_GREEN_Y : float;
  PRIMARY_BLUE_X : float;
  PRIMARY_BLUE_Y : float
}.

Definition led_primaries : Primaries := {|
  PRIMARY_RED_X := literal 700606061 9;
  PRIMARY_RED_Y := literal 299300699 9;
  PRIMARY_GREEN_X := literal 154722061 9;
  PRIMARY_GREEN_Y := literal 805863545 9;
  PRIMARY_BLUE_X := literal 109594324 9;
  PRIMARY_BLUE_Y := literal 8684251 8
|}.

Definition intercept_green (P : Primaries) (x y slope_gd : float) : float :=
  (PRIMARY_GREEN_Y P - slope_gd * PRIMARY_GREEN_X P)%b64.

Definition intercept_target (P : Primaries) (x y slope_gd : float) : float :=
  (y - slope_gd * x)%b64.

Definition calc_ratio_of_mixtures (y1 y2 y3 : float) : outcome float :=
  q <- py_div y2 y1 ;;
  py_div ((of_Z (-1) * q) * (y1 - y3))%b64 (y2 - y3)%b64.

Definition mixing_ratio_with
    (intercept : Primaries -> float -> float -> float -> float)
    (P : Primaries) (x y : float) : outcome (float * float * float) :=
  let RX := PRIMARY_RED_X P in
  let RY := PRIMARY_RED_Y P in
  let GX := PRIMARY_GREEN_X P in
  let GY := PRIMARY_GREEN_Y P in
  let BX := PRIMARY_BLUE_X P in
  let BY := PRIMARY_BLUE_Y P in
  slope_rb <- py_div (RY - BY)%b64 (RX - BX)%b64 ;;
  let const_rb := (BY - slope_rb * BX)%b64 in
  slope_gd <- py_div (GY - y)%b64 (GX - x)%b64 ;;
  let const_gd := intercept P x y slope_gd in
  purple_x <- py_div (const_rb - const_gd)%b64 (slope_gd - slope_rb)%b64 ;;
  let purple_y := (slope_rb * purple_x + const_rb)%b64 in
  ratio_br <- calc_ratio_of_mixtures BY RY purple_y ;;
  ratio_pg <- calc_ratio_of_mixtures purple_y GY y ;;
  red_fraction <- py_div ratio_br (ratio_br + of_Z 1)%b64 ;;
  blue_fraction <- py_div (of_Z 1) (ratio_br + of_Z 1)%b64 ;;
  red_ratio <- py_div red_fraction blue_fraction ;;
  green_ratio <- py_div ratio_pg blue_fraction ;;
  blue_ratio <- py_div blue_fraction blue_fraction ;;
  Returns (red_ratio, green_ratio, blue_ratio).

Definition xyy_to_rgb_mixing_ratio
  : Primaries -> float -> float -> outcome (float * float * float) :=
  mixing_ratio_with intercept_green.

(** Two outcomes of the solver are the same: the same ratio, component by
    component, or an exception on both sides. *)
Definition same_outcome (a b : outcome (float * float * float)) : bool :=
  match a, b with
  | Returns (r, g, b), Returns (r', g', b') =>
      (r =? r')%b64 && (g =? g')%b64 && (b =? b')%b64
  | Raises _, Raises _ => true
  | _, _ => false
  end.

(** The slope of the line from green to the target. *)
Definition slope_gd (P : Primaries) (x y : float) : float :=
  ((PRIMARY_GREEN_Y P - y) / (PRIMARY_GREEN_X P - x))%b64.

End Binary64.


(** ** The colour on the command line

    [main] turns its argument into three channel values with
    [binascii.unhexlify] and [struct.unpack('>BBB', ...)].  Both are
    library calls; they are modelled by what they do on a byte string:
    [unhexlify] raises [TypeError] on a string of odd length and on a
    character that is no hexadecimal digit, and takes both cases of the
    letters; [unpack] raises [struct.error] unless it is given exactly
    three bytes. *)

Inductive input_error : Type :=
| TypeError
| struct_error.

Definition hex_digit (c : ascii) : option Z :=
  let n := Z.of_N (N_of_ascii c) in
  if (48 <=? n)%Z && (n <=? 57)%Z then Some (n - 48)%Z
  else if (97 <=? n)%Z && (n <=? 102)%Z then Some (n - 87)%Z
  else if (65 <=? n)%Z && (n <=? 70)%Z then Some (n - 55)%Z
  else None.

Fixpoint all_hex (s : string) : bool :=
  match s with
  | EmptyString => true
  | String c rest =>
      match hex_digit c with Some _ => all_hex rest | None => false end
  end.

Fixpoint unhexlify_pairs (s : string) : option (list Z) :=
  match s with
  | EmptyString => Some []
  | String _ EmptyString => None
  | String top (String bot rest) =>
      match hex_digit top, hex_digit bot, unhexlify_pairs rest with
      | Some t, Some b, Some bytes => Some ((16 * t + b)%Z :: bytes)
      | _, _, _ => None
      end
  end.

Definition unhexlify (s : string) : input_error + list Z :=
  if Nat.odd (String.length s) then inl TypeError
  else match unhexlify_pairs s with
       | Some bytes => inr bytes
       | None => inl TypeError
       end.

Definition unpack_BBB (bytes : list Z) : input_error + (Z * Z * Z) :=
  match bytes with
  | [red; green; blue] => inr (red, green, blue)
  | _ => inl struct_error
  end.

(** The first two lines of the body of [main]. *)
Definition parse_color (color_hex_str : string) : input_error + (Z * Z * Z) :=
  match unhexlify color_hex_str with
  | inl e => inl e
  | inr color_bytes => unpack_BBB color_bytes
  end.

(** Two hexadecimal digits for a byte, in small or in capital letters. *)
Definition hex_char (capital : bool) (v : Z) : ascii :=
  if (v <? 10)%Z then ascii_of_N (Z.to_N (48 + v))
  else if capital then ascii_of_N (Z.to_N (55 + v))
  else ascii_of_N (Z.to_N (87 + v)).

Definition hex_byte (capital : bool) (v : Z) (rest : string) : string :=
  String (hex_char capital (v / 16)) (String (hex_char capital (v mod 16)) rest).

Definition hex_color (capital : bool) (red green blue : Z) : string :=
  hex_byte capital red
    (hex_byte capital green (hex_byte capital blue EmptyString)).

(** * Properties *)

(** ** Boolean tests on rationals *)

Lemma Qc_ltb_lt (a b : Qc) : Qc_ltb a b = true <-> a < b.
Proof.
  unfold Qc_ltb. rewrite Qclt_alt.
  destruct (a ?= b); split; congruence.
Qed.

Lemma Qc_leb_le (a b : Qc) : Qc_leb a b = true <-> a <= b.
Proof.
  unfold Qc_leb. rewrite Qcle_alt.
  destruct (a ?= b); split; congruence.
Qed.

Lemma Qc_is_zero_true (a : Qc) : Qc_is_zero a = true <-> a = 0.
Proof.
  unfold Qc_is_zero. split.
  - apply Qc_eq_bool_correct.
  - intros ->. unfold Qc_eq_bool. destruct (Qc_eq_dec 0 0); congruence.
Qed.

Lemma Qc_is_zero_false (a : Qc) : Qc_is_zero a = false <-> a <> 0.
Proof.
  rewrite <- Qc_is_zero_true. destruct (Qc_is_zero a); split; congruence.
Qed.

Lemma Qc_ltb_irrefl (a : Qc) : Qc_ltb a a = false.
Proof.
  destruct (Qc_ltb a a) eqn:E; [|reflexivity].
  apply Qc_ltb_lt in E. now apply Qclt_not_eq in E.
Qed.

(** ** Structural equality, decided *)

Lemma same_float_eq (a b : pyfloat) : same_float a b = true -> a = b.
Proof.
  destruct a, b; simpl; try discriminate; trivial.
  - intros H. f_equal. now apply Qc_eq_bool_correct.
  - intros H. f_equal. now apply Bool.eqb_prop.
Qed.

Lemma same_vec3_eq (v w : vec3) : same_vec3 v w = true -> v = w.
Proof.
  destruct v as [[a b] c], w as [[a' b'] c']. unfold same_vec3. simpl.
  intros H. apply andb_prop in H as [H Hc]. apply andb_prop in H as [Ha Hb].
  apply same_float_eq in Ha, Hb, Hc. congruence.
Qed.

(** Closed goals. *)
Ltac by_evaluation :=
  lazymatch goal with
  | |- @eq pyfloat _ _ => apply same_float_eq; vm_compute; reflexivity
  | |- @eq vec3 _ _ => apply same_vec3_eq; vm_compute; reflexivity
  | |- @eq (pyfloat * pyfloat * pyfloat)%type _ _ =>
      apply same_vec3_eq; vm_compute; reflexivity
  | |- @eq Qc _ _ => apply Qc_is_canon; vm_compute; reflexivity
  | |- (_ <= _)%Qc => apply Qc_leb_le; vm_compute; reflexivity
  | |- (_ < _)%Qc => apply Qc_ltb_lt; vm_compute; reflexivity
  | |- _ <> _ => apply Qc_is_zero_false; vm_compute; reflexivity
  end.

(** A closed run of the solver. *)
Ltac by_running :=
  lazymatch goal with
  | |- ?o = Returns ?v =>
      let o' := eval vm_compute in o in
      change (o' = Returns v); apply (f_equal Returns); by_evaluation
  end.

(** ** Arithmetic on finite floats *)

Lemma py_div_fin (a b : Qc) :
  Fin a /! Fin b
  = if Qc_is_zero b then Raises ZeroDivisionError else Returns (Fin (a / b)).
Proof.
  unfold py_div. simpl. now destruct (Qc_is_zero b).
Qed.

Lemma py_div_zero (a b : pyfloat) :
  Float.is_zero b = true -> a /! b = Raises ZeroDivisionError.
Proof. unfold py_div. now intros ->. Qed.

Lemma py_div_returns (a b c : pyfloat) :
  a /! b = Returns c -> Float.is_zero b = false /\ c = (a / b)%F.
Proof.
  unfold py_div. destruct (Float.is_zero b); [discriminate|].
  intros [= <-]. now split.
Qed.

Lemma py_div_raises (a b : pyfloat) (e : exn) :
  a /! b = Raises e -> e = ZeroDivisionError.
Proof. unfold py_div. destruct (Float.is_zero b); congruence. Qed.

Lemma sub_fin (a b : Qc) : (Fin a - Fin b)%F = Fin (a - b).
Proof. reflexivity. Qed.

Lemma sub_self_is_zero (a : Qc) : Float.is_zero (Fin a - Fin a)%F = true.
Proof. simpl. apply Qc_is_zero_true. ring. Qed.

Lemma mul_comm (a b : pyfloat) : (a * b)%F = (b * a)%F.
Proof.
  destruct a, b; simpl; trivial.
  - f_equal. ring.
  - f_equal. apply xorb_comm.
Qed.

(** ** The reference case of the docstring *)

(** C1.  At the D65 white point, with the primaries of the docstring,
    the solver returns a ratio (r, g, b) that is, up to one positive
    factor, the documented 0.7348 : 1.53696 : 0.265, each component within
    a relative 1e-3; the luminance of the target plays no part. *)
Theorem reference_mixing_ratio (Y : pyfloat) :
  exists r g b c : Qc,
    xyy_to_rgb_mixing_ratio docstring_primaries (Fin D65_x, Fin D65_y, Y)
    = Returns (Fin r, Fin g, Fin b)
    /\ 0 < c
    /\ within_rel tolerance r (c * expected_red)
    /\ within_rel tolerance g (c * expected_green)
    /\ within_rel tolerance b (c * expected_blue).
Proof.
  exists (Q2Qc (251405 # 90736)), (Q2Qc (1577549 # 272208)), 1,
         (/ expected_blue).
  split; [|split; [|split; [|split]]].
  - replace (xyy_to_rgb_mixing_ratio docstring_primaries (Fin D65_x, Fin D65_y, Y))
      with (xyy_to_rgb_mixing_ratio docstring_primaries (Fin D65_x, Fin D65_y, NaN))
      by reflexivity.
    by_running.
  - by_evaluation.
  - unfold within_rel. by_evaluation.
  - unfold within_rel. by_evaluation.
  - unfold within_rel. by_evaluation.
Qed.

(** ** The channel decoder *)

Lemma div_fin (p q : Qc) :
  Qc_is_zero q = false -> (Fin p / Fin q)%F = Fin (p / q).
Proof. simpl. now intros ->. Qed.

Lemma rgb_to_xyz_decode pow (red green blue : Z) :
  rgb_to_xyz pow red green blue
  = numpy_dot RGB_TO_XYZ (decode pow red, decode pow green, decode pow blue).
Proof. reflexivity. Qed.

Lemma decode_white pow :
  pow (Fin 1) COMPAND_POW = Fin 1 -> decode pow 255 = Fin (Q2Qc 100).
Proof.
  intros Hpow. unfold decode, decode_channel, inverse_companding.
  replace (Float.of_Z 255 / MAX_8_BIT)%F with (Fin 1) by by_evaluation.
  replace (Fin 1 <=? COMPAND_V_MIN)%F with false by (vm_compute; reflexivity).
  replace ((Fin 1 + COMPAND_B) / COMPAND_C)%F with (Fin 1) by by_evaluation.
  rewrite Hpow. by_evaluation.
Qed.

Lemma decode_linear pow (c : Z) :
  (Float.of_Z c / MAX_8_BIT <=? COMPAND_V_MIN)%F = true ->
  decode pow c = (Float.of_Z c / MAX_8_BIT / COMPAND_A * COMPAND_MAGIC_NUM)%F.
Proof.
  intros H. unfold decode, decode_channel, inverse_companding. now rewrite H.
Qed.

(** C2.  White, (255, 255, 255), decoded and taken through [RGB_TO_XYZ]
    and [xyz_to_xyy], has a chromaticity within 1e-3 of the D65 white
    point (0.3128, 0.3292); for any [pow] that maps base 1 to 1. *)
Theorem white_is_D65 (pow : pyfloat -> pyfloat -> pyfloat)
    (Hpow : pow (Fin 1) COMPAND_POW = Fin 1) :
  exists x y Y : Qc,
    xyz_to_xyy (rgb_to_xyz pow 255 255 255) = (Fin x, Fin y, Fin Y)
    /\ within_abs tolerance x D65_x
    /\ within_abs tolerance y D65_y.
Proof.
  exists (Q2Qc (9504700 # 30393001)), (Q2Qc (10000001 # 30393001)),
         (Q2Qc 100.00001).
  rewrite rgb_to_xyz_decode, (decode_white pow Hpow).
  split; [|split].
  - by_evaluation.
  - unfold within_abs. by_evaluation.
  - unfold within_abs. by_evaluation.
Qed.

Lemma white_is_D65_witness :
  pow_at_one (Fin 1) COMPAND_POW = Fin 1
  /\ exists x y Y : Qc,
       xyz_to_xyy (rgb_to_xyz pow_at_one 255 255 255) = (Fin x, Fin y, Fin Y)
       /\ within_abs tolerance x D65_x
       /\ within_abs tolerance y D65_y.
Proof.
  split; [reflexivity | apply (white_is_D65 pow_at_one); reflexivity].
Defined.

Lemma in_channel_values (c : Z) : (0 <= c <= 255)%Z -> In c channel_values.
Proof.
  intros Hc. unfold channel_values. rewrite <- (Z2Nat.id c) by lia.
  apply in_map, in_seq. lia.
Qed.

(** The linear branch is the branch of the channel values 0 .. 10. *)
Lemma linear_branch_bytes (c : Z) :
  (0 <= c <= 255)%Z -> takes_linear_branch c = (c <=? 10)%Z.
Proof.
  intros Hc. apply in_channel_values in Hc.
  assert (Hall : forallb (fun c => Bool.eqb (takes_linear_branch c)
                                     (c <=? 10)%Z) channel_values = true)
    by (vm_compute; reflexivity).
  rewrite forallb_forall in Hall. now apply Bool.eqb_prop, Hall.
Qed.

(** C6.  For a channel value c in 0..255 and v = c/255, the decoder yields
    100 * (v / 12.92) when v <= 0.04045 and 100 * ((v + 0.055) / 1.055) **
    2.4 otherwise; the first case is that of c <= 10; [rgb_to_xyz] applies
    the decoder to each of its three channels. *)
Theorem decode_formula (pow : pyfloat -> pyfloat -> pyfloat) (c : Z)
    (Hc : (0 <= c <= 255)%Z) :
  let v : Qc := Q2Qc (inject_Z c) / Q2Qc 255 in
  decode pow c
  = (if Qc_leb v (Q2Qc 0.04045)
     then Fin (Q2Qc 100 * (v / Q2Qc 12.92))
     else (Fin (Q2Qc 100)
           * pow (Fin ((v + Q2Qc 0.055) / Q2Qc 1.055)) (Fin (Q2Qc 2.4)))%F)
  /\ Qc_leb v (Q2Qc 0.04045) = (c <=? 10)%Z
  /\ forall green blue : Z,
       rgb_to_xyz pow c green blue
       = numpy_dot RGB_TO_XYZ (decode pow c, decode pow green, decode pow blue).
Proof.
  intros v.
  split; [|split; [now apply linear_branch_bytes
                  | intros; apply rgb_to_xyz_decode]].
  unfold decode, decode_channel, inverse_companding.
  assert (Hv : (Float.of_Z c / MAX_8_BIT)%F = Fin v).
  { unfold Float.of_Z, MAX_8_BIT, Float.of_Z. rewrite div_fin by reflexivity.
    reflexivity. }
  rewrite Hv.
  change (Fin v <=? COMPAND_V_MIN)%F with (Qc_leb v (Q2Qc 0.04045)).
  destruct (Qc_leb v (Q2Qc 0.04045)).
  - unfold COMPAND_A, COMPAND_MAGIC_NUM, lit, Float.of_Z.
    rewrite div_fin by reflexivity. simpl. f_equal.
    replace (Q2Qc (inject_Z 100)) with (Q2Qc 100) by by_evaluation. ring.
  - unfold COMPAND_B, COMPAND_C, COMPAND_POW, COMPAND_MAGIC_NUM, lit.
    change (Fin v + Fin (Q2Qc 0.055))%F with (Fin (v + Q2Qc 0.055)).
    rewrite div_fin by reflexivity.
    rewrite mul_comm. reflexivity.
Qed.

Lemma decode_formula_witness :
  (0 <= 255 <= 255)%Z
  /\ decode pow_at_one 255
     = (if Qc_leb (Q2Qc (inject_Z 255) / Q2Qc 255) (Q2Qc 0.04045)
        then Fin (Q2Qc 100 * (Q2Qc (inject_Z 255) / Q2Qc 255 / Q2Qc 12.92))
        else (Fin (Q2Qc 100)
              * pow_at_one
                  (Fin ((Q2Qc (inject_Z 255) / Q2Qc 255 + Q2Qc 0.055)
                        / Q2Qc 1.055))
                  (Fin (Q2Qc 2.4)))%F).
Proof.
  split; [lia | apply (decode_formula pow_at_one 255); lia].
Defined.

(** ** The solver on finite targets *)

Lemma bind_assoc {A B C : Type} (m : outcome A) (f : A -> outcome B)
    (k : B -> outcome C) :
  bind (bind m f) k = bind m (fun a => bind (f a) k).
Proof. now destruct m. Qed.

Lemma bind_div_fin {A : Type} (a b : Qc) (k : pyfloat -> outcome A) :
  bind (Fin a /! Fin b) k
  = if Qc_is_zero b then Raises ZeroDivisionError else k (Fin (a / b)).
Proof. rewrite py_div_fin. now destruct (Qc_is_zero b). Qed.

Lemma Qc_div_self (t : Qc) : t <> 0 -> t / t = 1.
Proof. intros H. now field. Qed.

(** One division of the solver on finite operands: it raises, or the
    quotient of two rationals goes on to the rest. *)
Ltac fin_operands :=
  lazymatch goal with
  | |- bind (py_div ?X ?Y) ?k = ?rhs =>
      let X' := eval cbn [Float.sub Float.add Float.neg Float.mul item] in X in
      let Y' := eval cbn [Float.sub Float.add Float.neg Float.mul item] in Y in
      change (bind (py_div X' Y') k = rhs)
  | |- bind (py_div ?X ?Y) ?k = ?rhs -> ?G =>
      let X' := eval cbn [Float.sub Float.add Float.neg Float.mul item] in X in
      let Y' := eval cbn [Float.sub Float.add Float.neg Float.mul item] in Y in
      change (bind (py_div X' Y') k = rhs -> G)
  end.

Ltac solver_step :=
  repeat rewrite bind_assoc;
  fin_operands;
  rewrite bind_div_fin;
  let E := fresh "Hden" in
  lazymatch goal with
  | |- (if Qc_is_zero ?d then _ else _) = _ =>
      destruct (Qc_is_zero d) eqn:E
  | |- (if Qc_is_zero ?d then _ else _) = _ -> _ =>
      destruct (Qc_is_zero d) eqn:E
  end;
  [ | cbv beta ].

Ltac unfold_solver :=
  unfold xyy_to_rgb_mixing_ratio, mixing_ratio_with, calc_ratio_of_mixtures,
    intercept_green, intercept_target, intercept_article, Float.of_Z;
  cbv zeta.

(** C7.  Whenever the solver returns on a finite target, that is whenever
    none of its denominators is zero, the blue component of the ratio is
    exactly 1. *)
Theorem blue_ratio_is_one (P : Primaries) (x y : Qc) (Y r g b : pyfloat)
    (Hret : xyy_to_rgb_mixing_ratio P (Fin x, Fin y, Y) = Returns (r, g, b)) :
  b = Fin 1.
Proof.
  revert Hret. unfold_solver.
  do 12 (solver_step; [discriminate|]).
  intros [= _ _ <-]. f_equal. apply Qc_div_self. now apply Qc_is_zero_false.
Qed.

Lemma blue_ratio_is_one_witness :
  xyy_to_rgb_mixing_ratio docstring_primaries (Fin D65_x, Fin D65_y, Fin 1)
  = Returns (Fin (Q2Qc (251405 # 90736)), Fin (Q2Qc (1577549 # 272208)), Fin 1)
  /\ Fin 1 = Fin 1.
Proof.
  assert (H : xyy_to_rgb_mixing_ratio docstring_primaries
                (Fin D65_x, Fin D65_y, Fin 1)
              = Returns (Fin (Q2Qc (251405 # 90736)),
                         Fin (Q2Qc (1577549 # 272208)), Fin 1)).
  { by_running. }
  split; [exact H | exact (blue_ratio_is_one _ _ _ _ _ _ _ H)].
Defined.

(** ** Zero denominators of the solver *)

(** [ZeroDivisionError] does not single out a shared x.  With the
    primaries of the docstring, where red and blue have different x, a
    target off the x of green but level with its y raises it, as a target
    on the x of green does; the calibrator raises it on a ratio whose red
    is 0. *)
Lemma zero_division_outside_shared_x :
  PRIMARY_RED_X docstring_primaries <> PRIMARY_BLUE_X docstring_primaries
  /\ D65_x <> PRIMARY_GREEN_X docstring_primaries
  /\ xyy_to_rgb_mixing_ratio docstring_primaries
       (Fin D65_x, Fin (PRIMARY_GREEN_Y docstring_primaries), Fin 1)
     = Raises ZeroDivisionError
  /\ xyy_to_rgb_mixing_ratio docstring_primaries
       (Fin (PRIMARY_GREEN_X docstring_primaries), Fin D65_y, Fin 1)
     = Raises ZeroDivisionError
  /\ choose_luminous_intensities (Fin 0, Fin 1, Fin 1)
     = Raises ZeroDivisionError.
Proof.
  split; [|split; [|split; [|split]]].
  - intros H. apply (f_equal this) in H. vm_compute in H. discriminate H.
  - intros H. apply (f_equal this) in H. vm_compute in H. discriminate H.
  - vm_compute. reflexivity.
  - vm_compute. reflexivity.
  - vm_compute. reflexivity.
Qed.

(** C5, as the script has it.  When red and blue share their x, or green
    and the target do, the division of Python floats raises
    [ZeroDivisionError] and the solver returns nothing: no infinity and no
    NaN comes out.  The script has no check of its own, and the exception
    is the one that every other zero denominator raises. *)
Theorem shared_x_raises (P : Primaries) (cie_xyy : vec3)
    (Hshared : PRIMARY_RED_X P = PRIMARY_BLUE_X P
               \/ item cie_xyy 0 = Fin (PRIMARY_GREEN_X P)) :
  xyy_to_rgb_mixing_ratio P cie_xyy = Raises ZeroDivisionError.
Proof.
  unfold xyy_to_rgb_mixing_ratio, mixing_ratio_with. cbv zeta.
  destruct Hshared as [Hrb | Hgd].
  - rewrite Hrb, py_div_zero by apply sub_self_is_zero. reflexivity.
  - rewrite Hgd.
    destruct (_ /! _) as [slope_rb | e] eqn:Hrb; cbn [bind].
    + rewrite (py_div_zero _ (Fin _ - Fin _)%F) by apply sub_self_is_zero.
      reflexivity.
    + now rewrite (py_div_raises _ _ _ Hrb).
Qed.

Lemma shared_x_raises_witness :
  item (Fin (PRIMARY_GREEN_X docstring_primaries), Fin D65_y, Fin 1) 0
  = Fin (PRIMARY_GREEN_X docstring_primaries)
  /\ xyy_to_rgb_mixing_ratio docstring_primaries
       (Fin (PRIMARY_GREEN_X docstring_primaries), Fin D65_y, Fin 1)
     = Raises ZeroDivisionError.
Proof.
  split; [reflexivity | apply shared_x_raises; right; reflexivity].
Defined.

(** ** The projection to chromaticity *)

(** Black.  The projection divides 0 by 0 and returns NaN twice, no error
    is signalled; the solver takes the NaNs and returns three more, none
    of which is below 0, and [main] goes on to the calibrator, where the
    report fails on them: the run ends in the [ValueError] of '%d'. *)
Lemma xyz_to_xyy_black :
  xyz_to_xyy (Fin 0, Fin 0, Fin 0) = (NaN, NaN, Fin 0)
  /\ xyy_to_rgb_mixing_ratio led_primaries (xyz_to_xyy (Fin 0, Fin 0, Fin 0))
     = Returns (NaN, NaN, NaN)
  /\ main pow_at_one 0 0 0 = Raises ValueError.
Proof.
  split; [|split].
  - by_evaluation.
  - vm_compute. reflexivity.
  - vm_compute. reflexivity.
Qed.

(** C4, as the script has it.  On a finite XYZ whose sum is not zero, so
    on every one whose sum is positive, [xyz_to_xyy] returns
    (X/(X+Y+Z), Y/(X+Y+Z), Y).  On a sum of zero it divides all the same:
    nothing is signalled, x and y come out as NaN or as an infinity. *)
Theorem xyz_to_xyy_projection (X Y Z : Qc) :
  (X + Y + Z <> 0 ->
   xyz_to_xyy (Fin X, Fin Y, Fin Z)
   = (Fin (X / (X + Y + Z)), Fin (Y / (X + Y + Z)), Fin Y))
  /\ (X + Y + Z = 0 ->
      exists x y : pyfloat,
        xyz_to_xyy (Fin X, Fin Y, Fin Z) = (x, y, Fin Y)
        /\ Float.is_finite x = false /\ Float.is_finite y = false).
Proof.
  unfold xyz_to_xyy, numpy_sum. cbn [item Float.add]. split.
  - intros Hsum. apply Qc_is_zero_false in Hsum.
    now rewrite !div_fin by exact Hsum.
  - intros Hsum. rewrite Hsum. do 2 eexists. split; [reflexivity|].
    cbn [Float.div].
    replace (Qc_is_zero 0) with true by (symmetry; now apply Qc_is_zero_true).
    split; [destruct (Qc_is_zero X) | destruct (Qc_is_zero Y)]; reflexivity.
Qed.

Lemma xyz_to_xyy_projection_witness :
  Q2Qc 95.047 + Q2Qc 100 + Q2Qc 108.883 <> 0
  /\ xyz_to_xyy (Fin (Q2Qc 95.047), Fin (Q2Qc 100), Fin (Q2Qc 108.883))
     = (Fin (Q2Qc 95.047 / (Q2Qc 95.047 + Q2Qc 100 + Q2Qc 108.883)),
        Fin (Q2Qc 100 / (Q2Qc 95.047 + Q2Qc 100 + Q2Qc 108.883)),
        Fin (Q2Qc 100)).
Proof.
  assert (H : Q2Qc 95.047 + Q2Qc 100 + Q2Qc 108.883 <> 0).
  { apply Qc_is_zero_false. vm_compute. reflexivity. }
  split; [exact H | exact (proj1 (xyz_to_xyy_projection _ _ _) H)].
Defined.

(** ** The gamut check of main *)

Lemma non_negative_not_negative (a : pyfloat) :
  non_negative a -> (a <? Fin 0)%F = false.
Proof.
  unfold non_negative. destruct a as [q | s |]; simpl.
  - intros H. apply Qc_leb_le in H.
    destruct (Qc_ltb q (Q2Qc 0)) eqn:E; [|reflexivity].
    apply Qc_ltb_lt in E. now apply Qcle_not_lt in H.
  - now destruct s.
  - discriminate.
Qed.

Lemma any_negative_true (ratio : vec3) :
  any_negative ratio = true
  <-> negative (item ratio 0) \/ negative (item ratio 1)
      \/ negative (item ratio 2).
Proof.
  unfold any_negative, negative. cbn [existsb].
  rewrite orb_false_r, !orb_true_iff. tauto.
Qed.

Lemma format_d_raises (value : pyfloat) (e : exn) :
  format_d value = Raises e -> e = ValueError \/ e = OverflowError.
Proof. destruct value; cbn [format_d]; intros [= <-]; tauto. Qed.

(** What the calibrator raises comes from a division or from '%d'. *)
Lemma calibrator_raises_one_of (ratio : vec3) (e : exn) :
  choose_luminous_intensities ratio = Raises e ->
  e = ZeroDivisionError \/ e = ValueError \/ e = OverflowError.
Proof.
  unfold choose_luminous_intensities, print_result.
  repeat lazymatch goal with
         | |- bind (bind _ _) _ = _ -> _ => rewrite bind_assoc
         | |- bind (?a /! ?b) _ = _ -> _ =>
             destruct (a /! b) as [? | ?] eqn:?; cbn [bind];
             [ | intros [= <-]; left; eapply py_div_raises; eassumption ]
         | |- bind (format_d ?v) _ = _ -> _ =>
             destruct (format_d v) as [? | ?] eqn:?; cbn [bind];
             [ | intros [= <-]; right; eapply format_d_raises; eassumption ]
         end.
  discriminate.
Qed.

(** C3.  Once the solver has returned a ratio for an input colour: if a
    component is strictly negative, [main] raises the imaginary-colour
    exception, so the ratio is neither calibrated nor returned; if all
    three are at least 0, [main] is the calibration of that ratio, and
    that never is the imaginary-colour exception. *)
Theorem gamut_check (pow : pyfloat -> pyfloat -> pyfloat)
    (red green blue : Z) (ratio : vec3)
    (Hsolved : xyy_to_rgb_mixing_ratio led_primaries
                 (xyz_to_xyy (rgb_to_xyz pow red green blue))
               = Returns ratio) :
  (negative (item ratio 0) \/ negative (item ratio 1)
   \/ negative (item ratio 2) ->
   main pow red green blue = Raises imaginary_color)
  /\ (non_negative (item ratio 0) /\ non_negative (item ratio 1)
      /\ non_negative (item ratio 2) ->
      main pow red green blue = choose_luminous_intensities ratio
      /\ main pow red green blue <> Raises imaginary_color).
Proof.
  unfold main. rewrite Hsolved. cbn [bind]. unfold gamut_gate. split.
  - intros Hneg. apply any_negative_true in Hneg. now rewrite Hneg.
  - intros (H0 & H1 & H2).
    apply non_negative_not_negative in H0, H1, H2.
    unfold any_negative. cbn [existsb]. rewrite H0, H1, H2. cbn [orb].
    split; [reflexivity|].
    intros Hraise. apply calibrator_raises_one_of in Hraise.
    destruct Hraise as [H | [H | H]]; discriminate H.
Qed.

Lemma solved_white :
  xyy_to_rgb_mixing_ratio led_primaries
    (xyz_to_xyy (rgb_to_xyz pow_at_one 255 255 255))
  = Returns white_ratio.
Proof.
  by_running.
Qed.

Lemma solved_blue :
  xyy_to_rgb_mixing_ratio led_primaries
    (xyz_to_xyy (rgb_to_xyz pow_at_one 0 0 255))
  = Returns srgb_blue_ratio.
Proof.
  by_running.
Qed.

Lemma gamut_check_witness :
  (main pow_at_one 255 255 255 = choose_luminous_intensities white_ratio
   /\ main pow_at_one 255 255 255 <> Raises imaginary_color)
  /\ main pow_at_one 0 0 255 = Raises imaginary_color.
Proof.
  split.
  - apply (proj2 (gamut_check pow_at_one 255 255 255 white_ratio solved_white)).
    repeat split; vm_compute; reflexivity.
  - apply (proj1 (gamut_check pow_at_one 0 0 255 srgb_blue_ratio solved_blue)).
    right; left. vm_compute. reflexivity.
Defined.

(** ** The calibrator *)

Lemma py_sum_fin (r g b : Qc) : py_sum (Fin r, Fin g, Fin b) = Fin (r + g + b).
Proof. unfold py_sum. cbn [item Float.add]. f_equal. ring. Qed.

Lemma Qc_div_nonzero (r t : Qc) : r <> 0 -> t <> 0 -> r / t <> 0.
Proof.
  intros Hr Ht H. apply Hr.
  replace r with (r / t * t) by (now field). rewrite H. ring.
Qed.

(** C9.  On a ratio (r, g, b) with r + g + b <> 0 and r <> 0, the
    calibrator returns the percentages p_i = ratio_i / (r + g + b) and the
    intensities: red at its rating, 0.105 cd, green and blue at
    (red / p_red) * p_green and (red / p_red) * p_blue, that is at
    red * g / r and red * b / r, with no bound applied to them. *)
Theorem calibrated_intensities (r g b : Qc)
    (Hsum : r + g + b <> 0) (Hr : r <> 0) :
  let total := r + g + b in
  let p_red := r / total in
  let p_green := g / total in
  let p_blue := b / total in
  RED_LUMINOUS_INTENSITY = Fin red_rating
  /\ choose_luminous_intensities (Fin r, Fin g, Fin b)
     = Returns ((Fin p_red, Fin p_green, Fin p_blue),
                (RED_LUMINOUS_INTENSITY,
                 Fin (red_rating / p_red * p_green),
                 Fin (red_rating / p_red * p_blue)))
  /\ red_rating / p_red * p_green = red_rating * g / r
  /\ red_rating / p_red * p_blue = red_rating * b / r.
Proof.
  cbv zeta.
  assert (Hp : r / (r + g + b) <> 0) by (now apply Qc_div_nonzero).
  split; [reflexivity|]. split; [|split].
  - unfold choose_luminous_intensities. rewrite py_sum_fin. cbn [item].
    apply Qc_is_zero_false in Hsum, Hp.
    rewrite !bind_div_fin, Hsum.
    change RED_LUMINOUS_INTENSITY with (Fin red_rating).
    rewrite !bind_div_fin, Hp. reflexivity.
  - field. repeat split; assumption.
  - field. repeat split; assumption.
Qed.

Lemma calibrated_intensities_witness :
  Q2Qc 1 + Q2Qc 10 + Q2Qc 1 <> 0 /\ Q2Qc 1 <> 0
  /\ choose_luminous_intensities (Fin (Q2Qc 1), Fin (Q2Qc 10), Fin (Q2Qc 1))
     = Returns
         ((Fin (Q2Qc 1 / (Q2Qc 1 + Q2Qc 10 + Q2Qc 1)),
           Fin (Q2Qc 10 / (Q2Qc 1 + Q2Qc 10 + Q2Qc 1)),
           Fin (Q2Qc 1 / (Q2Qc 1 + Q2Qc 10 + Q2Qc 1))),
          (RED_LUMINOUS_INTENSITY,
           Fin (red_rating / (Q2Qc 1 / (Q2Qc 1 + Q2Qc 10 + Q2Qc 1))
                * (Q2Qc 10 / (Q2Qc 1 + Q2Qc 10 + Q2Qc 1))),
           Fin (red_rating / (Q2Qc 1 / (Q2Qc 1 + Q2Qc 10 + Q2Qc 1))
                * (Q2Qc 1 / (Q2Qc 1 + Q2Qc 10 + Q2Qc 1))))).
Proof.
  assert (Hsum : Q2Qc 1 + Q2Qc 10 + Q2Qc 1 <> 0).
  { apply Qc_is_zero_false. vm_compute. reflexivity. }
  assert (Hr : Q2Qc 1 <> 0).
  { apply Qc_is_zero_false. vm_compute. reflexivity. }
  split; [exact Hsum | split; [exact Hr |]].
  exact (proj1 (proj2 (calibrated_intensities _ _ _ Hsum Hr))).
Defined.

(** At the ratio 1 : 10 : 1 the green intensity is ten times the red
    rating, 1.05 cd, above the 0.33 cd the green LED is rated for: no
    bound is applied. *)
Lemma green_above_its_rating :
  exists percentages : vec3,
    choose_luminous_intensities (Fin (Q2Qc 1), Fin (Q2Qc 10), Fin (Q2Qc 1))
    = Returns (percentages,
               (RED_LUMINOUS_INTENSITY, Fin (Q2Qc 1.05), Fin red_rating))
    /\ (GREEN_LUMINOUS_INTENSITY <? Fin (Q2Qc 1.05))%F = true.
Proof.
  eexists. split; [|vm_compute; reflexivity].
  match goal with
  | |- ?o = _ => let o' := eval vm_compute in o in change o with o'
  end.
  do 2 f_equal. by_evaluation.
Qed.

(** ** Scaling the linear RGB triple *)

Lemma Qc_is_zero_scale (k X : Qc) :
  k <> 0 -> Qc_is_zero (k * X) = Qc_is_zero X.
Proof.
  intros Hk. destruct (Qc_is_zero X) eqn:E.
  - apply Qc_is_zero_true in E. apply Qc_is_zero_true. rewrite E. ring.
  - apply Qc_is_zero_false in E. apply Qc_is_zero_false.
    intros H. apply Qcmult_integral in H. tauto.
Qed.

Lemma Qc_ltb_scale (k X : Qc) :
  0 < k -> Qc_ltb (k * X) 0 = Qc_ltb X 0.
Proof.
  intros Hk. destruct (Qc_ltb X 0) eqn:E.
  - apply Qc_ltb_lt in E. apply Qc_ltb_lt.
    replace 0 with (0 * k) by ring. rewrite (Qcmult_comm k X).
    now apply Qcmult_lt_compat_r.
  - destruct (Qc_ltb (k * X) 0) eqn:E'; [|reflexivity].
    apply Qc_ltb_lt in E'. exfalso. revert E'. apply Qcle_not_lt.
    replace 0 with (0 * k) by ring. rewrite (Qcmult_comm k X).
    apply Qcmult_le_compat_r; [|now apply Qclt_le_weak].
    apply Qcnot_lt_le. intros H. apply Qc_ltb_lt in H. congruence.
Qed.

Lemma numpy_dot_fin (m00 m01 m02 m10 m11 m12 m20 m21 m22 r g b : Qc) :
  numpy_dot ((Fin m00, Fin m01, Fin m02), (Fin m10, Fin m11, Fin m12),
             (Fin m20, Fin m21, Fin m22)) (Fin r, Fin g, Fin b)
  = (Fin (m00 * r + m01 * g + m02 * b), Fin (m10 * r + m11 * g + m12 * b),
     Fin (m20 * r + m21 * g + m22 * b)).
Proof. reflexivity. Qed.

Lemma numpy_dot_scale (k r g b : Qc) :
  exists X Y Z : Qc,
    numpy_dot RGB_TO_XYZ (Fin r, Fin g, Fin b) = (Fin X, Fin Y, Fin Z)
    /\ numpy_dot RGB_TO_XYZ (scale (Fin k) (Fin r, Fin g, Fin b))
       = (Fin (k * X), Fin (k * Y), Fin (k * Z)).
Proof.
  unfold RGB_TO_XYZ, lit, scale, vec3_map. cbn [item Float.mul].
  rewrite !numpy_dot_fin. do 3 eexists. split; [reflexivity|].
  f_equal; [f_equal|]; apply (f_equal Fin); ring.
Qed.

Lemma div_by_scaled_sum (k X s : Qc) :
  0 < k -> (Fin (k * X) / Fin (k * s))%F = (Fin X / Fin s)%F.
Proof.
  intros Hk. assert (Hk0 : k <> 0).
  { intros H. rewrite H in Hk. now apply Qclt_not_eq in Hk. }
  cbn [Float.div]. rewrite !Qc_is_zero_scale, Qc_ltb_scale by assumption.
  destruct (Qc_is_zero s) eqn:Hs; [reflexivity|].
  apply Qc_is_zero_false in Hs. f_equal. now field.
Qed.

Lemma xyz_to_xyy_scale (k X Y Z : Qc) :
  0 < k ->
  xyz_to_xyy (Fin (k * X), Fin (k * Y), Fin (k * Z))
  = (item (xyz_to_xyy (Fin X, Fin Y, Fin Z)) 0,
     item (xyz_to_xyy (Fin X, Fin Y, Fin Z)) 1,
     (Fin k * item (xyz_to_xyy (Fin X, Fin Y, Fin Z)) 2)%F).
Proof.
  intros Hk. unfold xyz_to_xyy, numpy_sum. cbn [item Float.add Float.mul].
  replace (k * X + k * Y + k * Z) with (k * (X + Y + Z)) by ring.
  now rewrite !div_by_scaled_sum.
Qed.

Lemma solver_reads_chromaticity (P : Primaries) (v w : vec3) :
  item v 0 = item w 0 -> item v 1 = item w 1 ->
  xyy_to_rgb_mixing_ratio P v = xyy_to_rgb_mixing_ratio P w.
Proof.
  unfold xyy_to_rgb_mixing_ratio, mixing_ratio_with, intercept_green.
  now intros -> ->.
Qed.

(** C8.  Scaling a linear RGB triple by k > 0 before [RGB_TO_XYZ] is
    applied leaves x and y as they were, multiplies the luminance by k,
    and leaves the outcome of the solver as it was. *)
Theorem scale_invariance (P : Primaries) (k r g b : Qc) (Hk : 0 < k) :
  let rgb : vec3 := (Fin r, Fin g, Fin b) in
  let xyy := xyz_to_xyy (numpy_dot RGB_TO_XYZ rgb) in
  let xyy' := xyz_to_xyy (numpy_dot RGB_TO_XYZ (scale (Fin k) rgb)) in
  item xyy' 0 = item xyy 0
  /\ item xyy' 1 = item xyy 1
  /\ item xyy' 2 = (Fin k * item xyy 2)%F
  /\ xyy_to_rgb_mixing_ratio P xyy' = xyy_to_rgb_mixing_ratio P xyy.
Proof.
  cbv zeta. destruct (numpy_dot_scale k r g b) as (X & Y & Z & H & Hs).
  rewrite H, Hs, (xyz_to_xyy_scale k X Y Z Hk). cbn [item].
  split; [reflexivity | split; [reflexivity | split; [reflexivity|]]].
  apply solver_reads_chromaticity; reflexivity.
Qed.

Lemma scale_invariance_witness :
  0 < Q2Qc 3
  /\ xyy_to_rgb_mixing_ratio led_primaries
       (xyz_to_xyy (numpy_dot RGB_TO_XYZ
          (scale (Fin (Q2Qc 3))
             (Fin (Q2Qc 20), Fin (Q2Qc 50), Fin (Q2Qc 30)))))
     = xyy_to_rgb_mixing_ratio led_primaries
         (xyz_to_xyy (numpy_dot RGB_TO_XYZ
            (Fin (Q2Qc 20), Fin (Q2Qc 50), Fin (Q2Qc 30)))).
Proof.
  assert (Hk : 0 < Q2Qc 3) by (apply Qc_ltb_lt; vm_compute; reflexivity).
  split; [exact Hk|].
  exact (proj2 (proj2 (proj2
    (scale_invariance led_primaries (Q2Qc 3) (Q2Qc 20) (Q2Qc 50) (Q2Qc 30)
       Hk)))).
Defined.

(** ** The intercept of the line through green and the target *)

(** The line that the script keeps in a comment is not the line it runs:
    at the white point the two intercepts differ, and so do the ratios. *)
Lemma article_intercept_differs :
  intercept_green docstring_primaries D65 D65_slope_gd
  = Fin (Q2Qc (38239 # 25700))
  /\ intercept_article docstring_primaries D65 D65_slope_gd
     = Fin (Q2Qc (1200639 # 642500))
  /\ xyy_to_rgb_mixing_ratio docstring_primaries D65
     = Returns (Fin (Q2Qc (251405 # 90736)),
                Fin (Q2Qc (1577549 # 272208)), Fin 1)
  /\ mixing_ratio_with intercept_article docstring_primaries D65
     = Returns (Fin (Q2Qc (26929287 # 4847888)),
                Fin (Q2Qc (14017175 # 2423944)), Fin 1)
  /\ mixing_ratio_with intercept_article docstring_primaries D65
     <> xyy_to_rgb_mixing_ratio docstring_primaries D65.
Proof.
  assert (Hcode : xyy_to_rgb_mixing_ratio docstring_primaries D65
                  = Returns (Fin (Q2Qc (251405 # 90736)),
                             Fin (Q2Qc (1577549 # 272208)), Fin 1)).
  { by_running. }
  assert (Hart : mixing_ratio_with intercept_article docstring_primaries D65
                 = Returns (Fin (Q2Qc (26929287 # 4847888)),
                            Fin (Q2Qc (14017175 # 2423944)), Fin 1)).
  { by_running. }
  split; [by_evaluation | split; [by_evaluation |]].
  split; [exact Hcode | split; [exact Hart |]].
  rewrite Hcode, Hart. intros H.
  assert (Hred := f_equal (fun o : outcome vec3 =>
                             match o with
                             | Returns (Fin q, _, _) => this q
                             | _ => 0%Q
                             end) H).
  vm_compute in Hred. discriminate Hred.
Qed.

Lemma intercepts_agree (P : Primaries) (x y : Qc) (Y : pyfloat) :
  x <> PRIMARY_GREEN_X P ->
  intercept_green P (Fin x, Fin y, Y)
    (Fin ((PRIMARY_GREEN_Y P - y) / (PRIMARY_GREEN_X P - x)))
  = intercept_target P (Fin x, Fin y, Y)
      (Fin ((PRIMARY_GREEN_Y P - y) / (PRIMARY_GREEN_X P - x))).
Proof.
  intros Hx. unfold intercept_green, intercept_target.
  cbn [item Float.sub Float.add Float.neg Float.mul]. f_equal. field.
  intros H. apply Hx. rewrite <- (Qcplus_0_l x), <- H. ring.
Qed.

(** In binary64 the two intercepts are not the same number.  With the
    LEDs of the script and the target (0.2, 0.3) they differ in the last
    digit, and the two solvers return different ratios; and the line in
    the comment of the script is not the line of the target either, see
    [article_intercept_differs]. *)
Lemma stated_intercepts_differ :
  Binary64.eqb
    (Binary64.intercept_green Binary64.led_primaries
       (Binary64.literal 2 1) (Binary64.literal 3 1)
       (Binary64.slope_gd Binary64.led_primaries
          (Binary64.literal 2 1) (Binary64.literal 3 1)))
    (Binary64.intercept_target Binary64.led_primaries
       (Binary64.literal 2 1) (Binary64.literal 3 1)
       (Binary64.slope_gd Binary64.led_primaries
          (Binary64.literal 2 1) (Binary64.literal 3 1)))
  = false
  /\ Binary64.same_outcome
       (Binary64.xyy_to_rgb_mixing_ratio Binary64.led_primaries
          (Binary64.literal 2 1) (Binary64.literal 3 1))
       (Binary64.mixing_ratio_with Binary64.intercept_target
          Binary64.led_primaries (Binary64.literal 2 1) (Binary64.literal 3 1))
     = false
  /\ intercept_article docstring_primaries D65 D65_slope_gd
     = Fin (Q2Qc (1200639 # 642500))
  /\ intercept_green docstring_primaries D65 D65_slope_gd
     = Fin (Q2Qc (38239 # 25700))
  /\ mixing_ratio_with intercept_article docstring_primaries D65
     <> xyy_to_rgb_mixing_ratio docstring_primaries D65.
Proof.
  split; [vm_compute; reflexivity | split; [vm_compute; reflexivity |]].
  destruct article_intercept_differs as (Hg & Ha & _ & _ & Hne).
  split; [exact Ha | split; [exact Hg | exact Hne]].
Qed.

Lemma Fin_inj (a b : Qc) : Fin a = Fin b -> a = b.
Proof.
  intros H.
  exact (f_equal (fun f => match f with Fin q => q | _ => a end) H).
Qed.

Lemma article_offset (P : Primaries) (x y : Qc) (Y : pyfloat) :
  x <> PRIMARY_GREEN_X P ->
  intercept_article P (Fin x, Fin y, Y)
    (Fin ((PRIMARY_GREEN_Y P - y) / (PRIMARY_GREEN_X P - x)))
  = (intercept_green P (Fin x, Fin y, Y)
       (Fin ((PRIMARY_GREEN_Y P - y) / (PRIMARY_GREEN_X P - x)))
     + Fin (PRIMARY_GREEN_Y P - y))%F.
Proof.
  intros Hx. unfold intercept_green, intercept_article.
  cbn [item Float.sub Float.add Float.neg Float.mul]. f_equal. field.
  intros H. apply Hx. rewrite <- (Qcplus_0_l x), <- H. ring.
Qed.

(** C10, as the script has it.  In exact arithmetic, for a finite target
    with x off the x of green, the intercept of the script,
    PRIMARY_GREEN_Y - slope * PRIMARY_GREEN_X, is the intercept read at the
    target, y - slope * x, and a solver that takes the latter has the same
    outcome.  The line in the comment of the script is a third formula,
    PRIMARY_GREEN_Y - slope * x: its intercept is that of the script plus
    PRIMARY_GREEN_Y - y, which is slope * (PRIMARY_GREEN_X - x), and the
    two are the same only for a target level with green. *)
Theorem intercept_at_target (P : Primaries) (x y : Qc) (Y : pyfloat)
    (Hx : x <> PRIMARY_GREEN_X P) :
  let cie_xyy : vec3 := (Fin x, Fin y, Y) in
  let slope_gd := Fin ((PRIMARY_GREEN_Y P - y) / (PRIMARY_GREEN_X P - x)) in
  (Fin (PRIMARY_GREEN_Y P) - item cie_xyy 1)%F
    /! (Fin (PRIMARY_GREEN_X P) - item cie_xyy 0)%F
  = Returns slope_gd
  /\ intercept_green P cie_xyy slope_gd = intercept_target P cie_xyy slope_gd
  /\ mixing_ratio_with intercept_target P cie_xyy
     = xyy_to_rgb_mixing_ratio P cie_xyy
  /\ intercept_article P cie_xyy slope_gd
     = (intercept_green P cie_xyy slope_gd + Fin (PRIMARY_GREEN_Y P - y))%F
  /\ (intercept_article P cie_xyy slope_gd = intercept_green P cie_xyy slope_gd
      <-> y = PRIMARY_GREEN_Y P).
Proof.
  cbv zeta.
  assert (Hden : Qc_is_zero (PRIMARY_GREEN_X P - x) = false).
  { apply Qc_is_zero_false. intros H. apply Hx.
    rewrite <- (Qcplus_0_l x), <- H. ring. }
  assert (Hslope : (Fin (PRIMARY_GREEN_Y P) - Fin y)%F
                   /! (Fin (PRIMARY_GREEN_X P) - Fin x)%F
                   = Returns (Fin ((PRIMARY_GREEN_Y P - y)
                                   / (PRIMARY_GREEN_X P - x)))).
  { rewrite !sub_fin, py_div_fin, Hden. reflexivity. }
  split; [exact Hslope | split; [now apply intercepts_agree |]].
  split; [|split; [now apply article_offset |]].
  - unfold xyy_to_rgb_mixing_ratio, mixing_ratio_with. cbv zeta. cbn [item].
    lazymatch goal with
    | |- bind (?a /! ?b) _ = _ =>
        destruct (a /! b) as [slope_rb | e]; [cbn [bind] | reflexivity]
    end.
    rewrite Hslope. cbn [bind].
    now rewrite (intercepts_agree P x y Y Hx).
  - rewrite (article_offset P x y Y Hx).
    unfold intercept_green. cbn [Float.sub Float.add Float.neg Float.mul].
    split.
    + intros H. apply Fin_inj in H.
      assert (H0 : PRIMARY_GREEN_Y P - y = 0).
      { lazymatch type of H with
        | ?A + ?d = ?A => replace d with (A + d - A) by ring
        end.
        rewrite H. ring. }
      replace y with (PRIMARY_GREEN_Y P - (PRIMARY_GREEN_Y P - y)) by ring.
      rewrite H0. ring.
    + intros ->. f_equal. ring.
Qed.

Lemma intercept_at_target_witness :
  D65_x <> PRIMARY_GREEN_X docstring_primaries
  /\ mixing_ratio_with intercept_target docstring_primaries
       (Fin D65_x, Fin D65_y, Fin 1)
     = xyy_to_rgb_mixing_ratio docstring_primaries
         (Fin D65_x, Fin D65_y, Fin 1).
Proof.
  assert (Hx : D65_x <> PRIMARY_GREEN_X docstring_primaries).
  { intros H. apply (f_equal this) in H. vm_compute in H. discriminate H. }
  split; [exact Hx|].
  exact (proj1 (proj2 (proj2
    (intercept_at_target docstring_primaries D65_x D65_y (Fin 1) Hx)))).
Defined.

(** * Further properties *)

(** ** The solver, case by case *)

Ltac clash :=
  try discriminate;
  match goal with
  | Hz : Qc_is_zero _ = true, Hn : Qc_is_zero _ = false |- _ =>
      exfalso; apply (eq_true_false_abs _ Hz); exact Hn
  end.

Lemma normalised_red (rbr : Qc) :
  rbr + 1 <> 0 -> rbr / (rbr + 1) / (1 / (rbr + 1)) = rbr.
Proof. intros H. field. split; [exact H | apply Q_apart_0_1]. Qed.

Lemma normalised_green (rbr rpg : Qc) :
  rbr + 1 <> 0 -> rpg / (1 / (rbr + 1)) = rpg * (rbr + 1).
Proof. intros H. field. split; [exact H | apply Q_apart_0_1]. Qed.

Lemma solver_returns (P : Primaries) (x y : Qc) (Y : pyfloat) :
  Forall (fun d => d <> 0) (Exact.denominators P x y) ->
  xyy_to_rgb_mixing_ratio P (Fin x, Fin y, Y)
  = Returns (Fin (Exact.ratio_br P x y),
             Fin (Exact.ratio_pg P x y * (Exact.ratio_br P x y + 1)),
             Fin 1).
Proof.
  intros Hall. unfold Exact.denominators in Hall.
  repeat lazymatch goal with
         | H : Forall _ (_ :: _) |- _ =>
             let Hd := fresh "Hd" in
             apply Forall_cons_iff in H; destruct H as [Hd H];
             apply Qc_is_zero_false in Hd
         end.
  assert (Hbf : Qc_is_zero (1 / (Exact.ratio_br P x y + 1)) = false).
  { apply Qc_is_zero_false, Qc_div_nonzero;
      [apply Q_apart_0_1 | now apply Qc_is_zero_false]. }
  unfold_solver.
  do 12 (solver_step; [clash|]).
  apply Qc_is_zero_false in Hd6, Hbf.
  apply (f_equal Returns). f_equal; [f_equal|]; apply (f_equal Fin).
  - exact (normalised_red (Exact.ratio_br P x y) Hd6).
  - exact (normalised_green (Exact.ratio_br P x y) (Exact.ratio_pg P x y) Hd6).
  - exact (Qc_div_self _ Hbf).
Qed.


Lemma solver_raises (P : Primaries) (x y : Qc) (Y : pyfloat) :
  Exists (fun d => d = 0) (Exact.denominators P x y) ->
  xyy_to_rgb_mixing_ratio P (Fin x, Fin y, Y) = Raises ZeroDivisionError.
Proof.
  intros Hex. unfold Exact.denominators in Hex.
  unfold_solver.
  do 12 (solver_step; [reflexivity|]).
  exfalso.
  repeat lazymatch type of Hex with
         | Exists _ (_ :: _) =>
             apply Exists_cons in Hex; destruct Hex as [Hex | Hex];
             [ apply Qc_is_zero_true in Hex; clash | ]
         end.
  inversion Hex.
Qed.

Lemma denominators_cases (P : Primaries) (x y : Qc) :
  Forall (fun d => d <> 0) (Exact.denominators P x y)
  \/ Exists (fun d => d = 0) (Exact.denominators P x y).
Proof.
  destruct (Exists_dec (fun d => d = 0) (Exact.denominators P x y)
              (fun d => Qc_eq_dec d 0)) as [H | H].
  - now right.
  - left. now apply Forall_Exists_neg.
Qed.

(** ** Points on the two lines *)

Lemma red_on_rb (P : Primaries) :
  PRIMARY_RED_X P - PRIMARY_BLUE_X P <> 0 ->
  PRIMARY_RED_Y P = Exact.slope_rb P * PRIMARY_RED_X P + Exact.const_rb P.
Proof. intros H. unfold Exact.const_rb, Exact.slope_rb. now field. Qed.

Lemma blue_on_rb (P : Primaries) :
  PRIMARY_BLUE_Y P = Exact.slope_rb P * PRIMARY_BLUE_X P + Exact.const_rb P.
Proof. unfold Exact.const_rb. ring. Qed.

(** A point (X0, Y0) in line with green and the target lies on the line
    that the solver draws through them. *)
Lemma on_gd (P : Primaries) (x y X0 Y0 : Qc) :
  PRIMARY_GREEN_X P - x <> 0 ->
  (PRIMARY_GREEN_Y P - y) * (PRIMARY_GREEN_X P - X0)
  = (PRIMARY_GREEN_Y P - Y0) * (PRIMARY_GREEN_X P - x) ->
  Y0 = Exact.slope_gd P x y * X0 + Exact.const_gd P x y.
Proof.
  intros Hx Hline.
  assert (H : Exact.slope_gd P x y * (PRIMARY_GREEN_X P - X0)
              = PRIMARY_GREEN_Y P - Y0).
  { unfold Exact.slope_gd.
    replace ((PRIMARY_GREEN_Y P - y) / (PRIMARY_GREEN_X P - x)
             * (PRIMARY_GREEN_X P - X0))
      with ((PRIMARY_GREEN_Y P - y) * (PRIMARY_GREEN_X P - X0)
            / (PRIMARY_GREEN_X P - x)) by (now field).
    rewrite Hline. now field. }
  unfold Exact.const_gd.
  replace Y0 with (PRIMARY_GREEN_Y P - (PRIMARY_GREEN_Y P - Y0)) at 1 by ring.
  rewrite <- H. ring.
Qed.

Lemma target_on_gd (P : Primaries) (x y : Qc) :
  PRIMARY_GREEN_X P - x <> 0 ->
  y = Exact.slope_gd P x y * x + Exact.const_gd P x y.
Proof. intros Hx. now apply on_gd. Qed.

Ltac split_denominators H :=
  unfold Exact.denominators in H;
  repeat lazymatch type of H with
         | Forall _ (_ :: _) =>
             let Hd := fresh "Hd" in
             apply Forall_cons_iff in H; destruct H as [Hd H]
         end.

(** The outcome of the solver on a finite target, either way. *)
Lemma solver_outcome (P : Primaries) (x y : Qc) (Y : pyfloat) :
  (Forall (fun d => d <> 0) (Exact.denominators P x y)
   /\ xyy_to_rgb_mixing_ratio P (Fin x, Fin y, Y)
      = Returns (Fin (Exact.ratio_br P x y),
                 Fin (Exact.ratio_pg P x y * (Exact.ratio_br P x y + 1)),
                 Fin 1))
  \/ (Exists (fun d => d = 0) (Exact.denominators P x y)
      /\ xyy_to_rgb_mixing_ratio P (Fin x, Fin y, Y)
         = Raises ZeroDivisionError).
Proof.
  destruct (denominators_cases P x y) as [H | H].
  - left. split; [exact H | now apply solver_returns].
  - right. split; [exact H | now apply solver_raises].
Qed.

(** ** The centre of gravity *)

(** Two sources at y1 and y2, the second [ratio_of_mixtures] times as
    bright as the first, mix to y3. *)
Lemma two_sources_y (y1 y2 y3 : Qc) :
  y1 <> 0 -> y2 <> 0 -> y2 - y3 <> 0 ->
  y3 * (1 / y1 + Exact.ratio_of_mixtures y1 y2 y3 / y2)
  = 1 + Exact.ratio_of_mixtures y1 y2 y3.
Proof.
  intros H1 H2 H3. unfold Exact.ratio_of_mixtures.
  replace Exact.minus_one with (- (1)) by by_evaluation.
  field. repeat split; assumption.
Qed.

Lemma two_sources_balance (y1 y2 y3 : Qc) :
  y1 <> 0 -> y2 <> 0 -> y2 - y3 <> 0 ->
  1 / y1 * (y1 - y3) + Exact.ratio_of_mixtures y1 y2 y3 / y2 * (y2 - y3) = 0.
Proof.
  intros H1 H2 H3. unfold Exact.ratio_of_mixtures.
  replace Exact.minus_one with (- (1)) by by_evaluation.
  field. repeat split; assumption.
Qed.

(** The same for x, when the three points lie on one line. *)
Lemma two_sources_x (s c x1 y1 x2 y2 x3 y3 : Qc) :
  y1 <> 0 -> y2 <> 0 -> y2 - y3 <> 0 ->
  y1 = s * x1 + c -> y2 = s * x2 + c -> y3 = s * x3 + c ->
  x3 * (1 / y1 + Exact.ratio_of_mixtures y1 y2 y3 / y2)
  = x1 / y1 + Exact.ratio_of_mixtures y1 y2 y3 * x2 / y2.
Proof.
  intros H1 H2 H3 L1 L2 L3.
  pose proof (two_sources_balance y1 y2 y3 H1 H2 H3) as Hbal.
  set (R := Exact.ratio_of_mixtures y1 y2 y3) in *.
  assert (Hs : s <> 0).
  { intros Hs. apply H3. rewrite L2, L3, Hs. ring. }
  assert (B : 1 / y1 * (x1 - x3) + R / y2 * (x2 - x3) = 0).
  { apply (Qcmult_integral_l s); [exact Hs|].
    rewrite <- Hbal.
    replace (y1 - y3) with (s * (x1 - x3)) by (rewrite L1, L3; ring).
    replace (y2 - y3) with (s * (x2 - x3)) by (rewrite L2, L3; ring).
    ring. }
  replace (x1 / y1 + R * x2 / y2)
    with (x3 * (1 / y1 + R / y2)
          + (1 / y1 * (x1 - x3) + R / y2 * (x2 - x3)))
    by (field; split; assumption).
  rewrite B. ring.
Qed.

Lemma compose_mixtures (x y px py rbr rpg RX RY GX GY BX BY : Qc) :
  py <> 0 -> RY <> 0 -> GY <> 0 -> BY <> 0 ->
  py * (1 / BY + rbr / RY) = 1 + rbr ->
  px * (1 / BY + rbr / RY) = BX / BY + rbr * RX / RY ->
  y * (1 / py + rpg / GY) = 1 + rpg ->
  x * (1 / py + rpg / GY) = px / py + rpg * GX / GY ->
  y * (rbr / RY + rpg * (rbr + 1) / GY + 1 / BY) = rbr + rpg * (rbr + 1) + 1
  /\ x * (rbr / RY + rpg * (rbr + 1) / GY + 1 / BY)
     = rbr * RX / RY + rpg * (rbr + 1) * GX / GY + 1 * BX / BY.
Proof.
  intros Hpy HRY HGY HBY Hy1 Hx1 Hy2 Hx2.
  assert (HA : 1 / BY + rbr / RY = (1 + rbr) / py).
  { rewrite <- Hy1. field. repeat split; assumption. }
  assert (Hmass : rbr / RY + rpg * (rbr + 1) / GY + 1 / BY
                  = (1 + rbr) * (1 / py + rpg / GY)).
  { replace (rbr / RY + rpg * (rbr + 1) / GY + 1 / BY)
      with ((1 / BY + rbr / RY) + rpg * (rbr + 1) / GY)
      by (field; repeat split; assumption).
    rewrite HA. field. split; assumption. }
  rewrite Hmass. split.
  - replace (y * ((1 + rbr) * (1 / py + rpg / GY)))
      with ((1 + rbr) * (y * (1 / py + rpg / GY))) by ring.
    rewrite Hy2. ring.
  - replace (x * ((1 + rbr) * (1 / py + rpg / GY)))
      with ((1 + rbr) * (x * (1 / py + rpg / GY))) by ring.
    rewrite Hx2.
    replace ((1 + rbr) * (px / py + rpg * GX / GY))
      with (px * ((1 + rbr) / py) + rpg * (rbr + 1) * GX / GY)
      by (field; split; assumption).
    rewrite <- HA, Hx1. field. repeat split; assumption.
Qed.

Lemma purple_on_gd (P : Primaries) (x y : Qc) :
  Exact.slope_gd P x y - Exact.slope_rb P <> 0 ->
  Exact.purple_y P x y
  = Exact.slope_gd P x y * Exact.purple_x P x y + Exact.const_gd P x y.
Proof.
  intros Hs. unfold Exact.purple_y, Exact.purple_x.
  generalize (Exact.slope_gd P x y) (Exact.slope_rb P) (Exact.const_rb P)
    (Exact.const_gd P x y) Hs.
  intros sgd srb crb cgd H. now field.
Qed.

Lemma green_on_gd (P : Primaries) (x y : Qc) :
  PRIMARY_GREEN_Y P
  = Exact.slope_gd P x y * PRIMARY_GREEN_X P + Exact.const_gd P x y.
Proof. unfold Exact.const_gd. ring. Qed.

(** If the solver returns, no denominator was zero and the ratio is the
    closed form. *)
Lemma solver_returned (P : Primaries) (x y : Qc) (Y : pyfloat) (ratio : vec3) :
  xyy_to_rgb_mixing_ratio P (Fin x, Fin y, Y) = Returns ratio ->
  Forall (fun d => d <> 0) (Exact.denominators P x y)
  /\ ratio = (Fin (Exact.ratio_br P x y),
              Fin (Exact.ratio_pg P x y * (Exact.ratio_br P x y + 1)),
              Fin 1).
Proof.
  intros Hret.
  destruct (solver_outcome P x y Y) as [[Hall H] | [_ H]];
    rewrite H in Hret; [|discriminate].
  split; [exact Hall | congruence].
Qed.




(** X2.  The ratio that the solver returns mixes to the target: with each
    primary weighted by its share of the ratio over its own y, the
    centre of gravity of the three primaries is (x, y). *)
Theorem ratio_mixes_to_target (P : Primaries) (x y r g b : Qc) (Y : pyfloat)
    (Hret : xyy_to_rgb_mixing_ratio P (Fin x, Fin y, Y)
            = Returns (Fin r, Fin g, Fin b))
    (Hred : PRIMARY_RED_Y P <> 0) (Hgreen : PRIMARY_GREEN_Y P <> 0) :
  let weight :=
    r / PRIMARY_RED_Y P + g / PRIMARY_GREEN_Y P + b / PRIMARY_BLUE_Y P in
  y * weight = r + g + b
  /\ x * weight
     = r * PRIMARY_RED_X P / PRIMARY_RED_Y P
       + g * PRIMARY_GREEN_X P / PRIMARY_GREEN_Y P
       + b * PRIMARY_BLUE_X P / PRIMARY_BLUE_Y P.
Proof.
  cbv zeta. apply solver_returned in Hret as [Hall Hratio].
  injection Hratio as -> -> ->.
  split_denominators Hall.
  apply compose_mixtures
    with (px := Exact.purple_x P x y) (py := Exact.purple_y P x y);
    try assumption.
  - now apply two_sources_y.
  - apply two_sources_x with (s := Exact.slope_rb P) (c := Exact.const_rb P);
      try assumption.
    + apply blue_on_rb.
    + now apply red_on_rb.
    + reflexivity.
  - now apply two_sources_y.
  - apply two_sources_x
      with (s := Exact.slope_gd P x y) (c := Exact.const_gd P x y);
      try assumption.
    + now apply purple_on_gd.
    + apply green_on_gd.
    + now apply target_on_gd.
Qed.

Lemma ratio_mixes_to_target_witness :
  D65_y * (Q2Qc (251405 # 90736) / PRIMARY_RED_Y docstring_primaries
           + Q2Qc (1577549 # 272208) / PRIMARY_GREEN_Y docstring_primaries
           + 1 / PRIMARY_BLUE_Y docstring_primaries)
  = Q2Qc (251405 # 90736) + Q2Qc (1577549 # 272208) + 1.
Proof.
  assert (Hret : xyy_to_rgb_mixing_ratio docstring_primaries
                   (Fin D65_x, Fin D65_y, Fin 1)
                 = Returns (Fin (Q2Qc (251405 # 90736)),
                            Fin (Q2Qc (1577549 # 272208)), Fin 1))
    by by_running.
  assert (Hred : PRIMARY_RED_Y docstring_primaries <> 0) by by_evaluation.
  assert (Hgreen : PRIMARY_GREEN_Y docstring_primaries <> 0) by by_evaluation.
  exact (proj1 (ratio_mixes_to_target _ _ _ _ _ _ _ Hret Hred Hgreen)).
Defined.

(** ** The calibrator, case by case *)

Lemma calibrator_raises (r g b : Qc) :
  r + g + b = 0 \/ r = 0 ->
  choose_luminous_intensities (Fin r, Fin g, Fin b) = Raises ZeroDivisionError.
Proof.
  intros H. unfold choose_luminous_intensities.
  rewrite py_sum_fin. cbn [item]. rewrite !bind_div_fin.
  destruct (Qc_is_zero (r + g + b)) eqn:Hsum; [reflexivity|].
  destruct H as [H | H].
  - apply Qc_is_zero_false in Hsum. contradiction.
  - change RED_LUMINOUS_INTENSITY with (Fin red_rating).
    rewrite bind_div_fin.
    replace (Qc_is_zero (r / (r + g + b))) with true; [reflexivity|].
    symmetry. apply Qc_is_zero_true. rewrite H. unfold Qcdiv. ring.
Qed.

Lemma calibrator_returns (r g b : Qc) :
  r + g + b <> 0 -> r <> 0 ->
  choose_luminous_intensities (Fin r, Fin g, Fin b)
  = Returns ((Fin (r / (r + g + b)), Fin (g / (r + g + b)),
              Fin (b / (r + g + b))),
             (RED_LUMINOUS_INTENSITY,
              Fin (red_rating / (r / (r + g + b)) * (g / (r + g + b))),
              Fin (red_rating / (r / (r + g + b)) * (b / (r + g + b))))).
Proof.
  intros Hsum Hr.
  assert (Hp : r / (r + g + b) <> 0) by (now apply Qc_div_nonzero).
  unfold choose_luminous_intensities. rewrite py_sum_fin. cbn [item].
  apply Qc_is_zero_false in Hsum, Hp.
  rewrite !bind_div_fin, Hsum.
  change RED_LUMINOUS_INTENSITY with (Fin red_rating).
  rewrite !bind_div_fin, Hp. reflexivity.
Qed.



(** X7.  The percentages that the calibrator returns on a finite ratio add
    up to 1. *)
Theorem percentages_sum_to_one (r g b : Qc) (percentages intensities : vec3)
    (Hret : choose_luminous_intensities (Fin r, Fin g, Fin b)
            = Returns (percentages, intensities)) :
  (item percentages 0 + item percentages 1 + item percentages 2)%F = Fin 1.
Proof.
  destruct (Qc_eq_dec (r + g + b) 0) as [Hsum | Hsum].
  { rewrite calibrator_raises in Hret by (now left). discriminate Hret. }
  destruct (Qc_eq_dec r 0) as [Hr | Hr].
  { rewrite calibrator_raises in Hret by (now right). discriminate Hret. }
  rewrite (calibrator_returns r g b Hsum Hr) in Hret.
  injection Hret as <- _. cbn [item Float.add]. f_equal. now field.
Qed.

Lemma percentages_sum_to_one_witness :
  (Fin (Q2Qc 1 / (Q2Qc 1 + Q2Qc 10 + Q2Qc 1))
   + Fin (Q2Qc 10 / (Q2Qc 1 + Q2Qc 10 + Q2Qc 1))
   + Fin (Q2Qc 1 / (Q2Qc 1 + Q2Qc 10 + Q2Qc 1)))%F = Fin 1.
Proof.
  assert (Hsum : Q2Qc 1 + Q2Qc 10 + Q2Qc 1 <> 0) by by_evaluation.
  assert (Hr : Q2Qc 1 <> 0) by by_evaluation.
  exact (percentages_sum_to_one _ _ _ _ _ (calibrator_returns _ _ _ Hsum Hr)).
Defined.

(** ** After the gamut check *)

Lemma Qc_ltb_nonneg (a : Qc) : 0 <= a -> Qc_ltb a 0 = false.
Proof.
  intros H. destruct (Qc_ltb a 0) eqn:E; [|reflexivity].
  apply Qc_ltb_lt in E. now apply Qcle_not_lt in H.
Qed.

Lemma sum_with_one_nonzero (r g : Qc) : 0 <= r -> 0 <= g -> r + g + 1 <> 0.
Proof.
  intros Hr Hg.
  assert (H0 : 0 + 0 <= r + g) by (now apply Qcplus_le_compat).
  assert (H1 : 0 + 0 + 1 <= r + g + 1).
  { apply Qcplus_le_compat; [exact H0 | apply Qcle_refl]. }
  assert (Hpos : 0 < 0 + 0 + 1) by by_evaluation.
  intros H. rewrite H in H1. now apply Qcle_not_lt in H1.
Qed.

(** X9.  A ratio with blue at 1 and red and green at least 0, as the
    solver returns it for a colour within the triangle, passes the gamut
    check; the calibrator then returns its report, unless red is exactly 0,
    when [main] ends in [ZeroDivisionError]. *)
Theorem report_within_gamut (r g : Qc) (Hr : 0 <= r) (Hg : 0 <= g) :
  (r = 0 -> gamut_gate (Fin r, Fin g, Fin 1) = Raises ZeroDivisionError)
  /\ (r <> 0 ->
      gamut_gate (Fin r, Fin g, Fin 1)
      = Returns ((Fin (r / (r + g + 1)), Fin (g / (r + g + 1)),
                  Fin (1 / (r + g + 1))),
                 (RED_LUMINOUS_INTENSITY,
                  Fin (red_rating / (r / (r + g + 1)) * (g / (r + g + 1))),
                  Fin (red_rating / (r / (r + g + 1)) * (1 / (r + g + 1)))))).
Proof.
  assert (Hgate : gamut_gate (Fin r, Fin g, Fin 1)
                  = choose_luminous_intensities (Fin r, Fin g, Fin 1)).
  { unfold gamut_gate, any_negative. cbn [existsb item Float.ltb].
    rewrite !Qc_ltb_nonneg by assumption.
    replace (Qc_ltb 1 (Q2Qc 0)) with false by (vm_compute; reflexivity).
    reflexivity. }
  rewrite Hgate. split.
  - intros H. apply calibrator_raises. now right.
  - intros H. apply calibrator_returns; [|exact H].
    now apply sum_with_one_nonzero.
Qed.

Lemma report_within_gamut_witness :
  0 <= Q2Qc 2 /\ 0 <= Q2Qc 5 /\ Q2Qc 2 <> 0
  /\ gamut_gate (Fin (Q2Qc 2), Fin (Q2Qc 5), Fin 1)
     = Returns ((Fin (Q2Qc 2 / (Q2Qc 2 + Q2Qc 5 + 1)),
                 Fin (Q2Qc 5 / (Q2Qc 2 + Q2Qc 5 + 1)),
                 Fin (1 / (Q2Qc 2 + Q2Qc 5 + 1))),
                (RED_LUMINOUS_INTENSITY,
                 Fin (red_rating / (Q2Qc 2 / (Q2Qc 2 + Q2Qc 5 + 1))
                      * (Q2Qc 5 / (Q2Qc 2 + Q2Qc 5 + 1))),
                 Fin (red_rating / (Q2Qc 2 / (Q2Qc 2 + Q2Qc 5 + 1))
                      * (1 / (Q2Qc 2 + Q2Qc 5 + 1))))).
Proof.
  assert (Hr : 0 <= Q2Qc 2) by by_evaluation.
  assert (Hg : 0 <= Q2Qc 5) by by_evaluation.
  assert (Hn : Q2Qc 2 <> 0) by by_evaluation.
  split; [exact Hr | split; [exact Hg | split; [exact Hn |]]].
  exact (proj2 (report_within_gamut (Q2Qc 2) (Q2Qc 5) Hr Hg) Hn).
Defined.

(** ** The range of the chromaticity *)

Lemma Qc_div_nonneg (a s : Qc) : 0 <= a -> 0 < s -> 0 <= a / s.
Proof.
  intros Ha Hs. apply Qcmult_lt_0_le_reg_r with (z := s); [exact Hs|].
  replace (0 * s) with 0 by ring.
  replace (a / s * s) with a; [exact Ha|].
  field. intros H. rewrite H in Hs. now apply Qclt_not_eq in Hs.
Qed.

Lemma Qc_div_le_one (a s : Qc) : a <= s -> 0 < s -> a / s <= 1.
Proof.
  intros Ha Hs. apply Qcmult_lt_0_le_reg_r with (z := s); [exact Hs|].
  replace (1 * s) with s by ring.
  replace (a / s * s) with a; [exact Ha|].
  field. intros H. rewrite H in Hs. now apply Qclt_not_eq in Hs.
Qed.

Lemma Qc_le_add_nonneg (a b : Qc) : 0 <= b -> a <= a + b.
Proof.
  intros Hb. replace a with (a + 0) at 1 by ring.
  apply Qcplus_le_compat; [apply Qcle_refl | exact Hb].
Qed.

Lemma xyy_in_range (X Y Z : Qc)
    (HX : 0 <= X) (HY : 0 <= Y) (HZ : 0 <= Z) (Hsum : 0 < X + Y + Z) :
  exists x y : Qc,
    xyz_to_xyy (Fin X, Fin Y, Fin Z) = (Fin x, Fin y, Fin Y)
    /\ 0 <= x /\ x <= 1 /\ 0 <= y /\ y <= 1 /\ x + y <= 1.
Proof.
  exists (X / (X + Y + Z)), (Y / (X + Y + Z)).
  assert (Hnz : Qc_is_zero (X + Y + Z) = false).
  { apply Qc_is_zero_false. intros H. rewrite H in Hsum.
    now apply Qclt_not_eq in Hsum. }
  split; [|repeat split].
  - unfold xyz_to_xyy, numpy_sum. cbn [item Float.add].
    now rewrite !div_fin by exact Hnz.
  - now apply Qc_div_nonneg.
  - apply Qc_div_le_one; [|exact Hsum].
    replace (X + Y + Z) with (X + (Y + Z)) by ring.
    apply Qc_le_add_nonneg.
    replace 0 with (0 + 0) by ring. now apply Qcplus_le_compat.
  - now apply Qc_div_nonneg.
  - apply Qc_div_le_one; [|exact Hsum].
    replace (X + Y + Z) with (Y + (X + Z)) by ring.
    apply Qc_le_add_nonneg.
    replace 0 with (0 + 0) by ring. now apply Qcplus_le_compat.
  - replace (X / (X + Y + Z) + Y / (X + Y + Z)) with ((X + Y) / (X + Y + Z))
      by (field; now apply Qc_is_zero_false).
    apply Qc_div_le_one; [|exact Hsum]. now apply Qc_le_add_nonneg.
Qed.

(** X10.  For an XYZ with no negative component and a positive sum, x and
    y are finite, each lies in [0, 1], and x + y <= 1; the luminance is
    the Y that came in. *)
Theorem chromaticity_range (X Y Z : Qc)
    (HX : 0 <= X) (HY : 0 <= Y) (HZ : 0 <= Z) (Hsum : 0 < X + Y + Z) :
  exists x y : Qc,
    xyz_to_xyy (Fin X, Fin Y, Fin Z) = (Fin x, Fin y, Fin Y)
    /\ 0 <= x /\ x <= 1 /\ 0 <= y /\ y <= 1 /\ x + y <= 1.
Proof. now apply xyy_in_range. Qed.

Lemma chromaticity_range_witness :
  exists x y : Qc,
    xyz_to_xyy (Fin (Q2Qc 95.047), Fin (Q2Qc 100), Fin (Q2Qc 108.883))
    = (Fin x, Fin y, Fin (Q2Qc 100))
    /\ 0 <= x /\ x <= 1 /\ 0 <= y /\ y <= 1 /\ x + y <= 1.
Proof.
  apply chromaticity_range; by_evaluation.
Defined.

(** ** Greys *)

Lemma solved_unit_grey (Y : pyfloat) :
  xyy_to_rgb_mixing_ratio led_primaries
    (item (xyz_to_xyy (numpy_dot RGB_TO_XYZ (Fin 1, Fin 1, Fin 1))) 0,
     item (xyz_to_xyy (numpy_dot RGB_TO_XYZ (Fin 1, Fin 1, Fin 1))) 1, Y)
  = Returns white_ratio.
Proof.
  rewrite (solver_reads_chromaticity led_primaries _
             (xyz_to_xyy (numpy_dot RGB_TO_XYZ (Fin 1, Fin 1, Fin 1))))
    by reflexivity.
  by_running.
Qed.

(** X11.  The brightness of a grey plays no part.  In exact arithmetic,
    when the three channels are equal and decode to a positive value, the
    chromaticity is that of white, the ratio is that of white, and [main]
    ends as it does for white. *)
Theorem greys_end_as_white (pow : pyfloat -> pyfloat -> pyfloat) (c : Z)
    (d : Qc) (Hdecode : decode pow c = Fin d) (Hpos : 0 < d) :
  item (xyz_to_xyy (rgb_to_xyz pow c c c)) 0
  = Fin (Q2Qc (9504700 # 30393001))
  /\ item (xyz_to_xyy (rgb_to_xyz pow c c c)) 1
     = Fin (Q2Qc (10000001 # 30393001))
  /\ xyy_to_rgb_mixing_ratio led_primaries (xyz_to_xyy (rgb_to_xyz pow c c c))
     = Returns white_ratio
  /\ main pow c c c = choose_luminous_intensities white_ratio.
Proof.
  assert (Hxyy : exists L : pyfloat,
             xyz_to_xyy (rgb_to_xyz pow c c c)
             = (item (xyz_to_xyy (numpy_dot RGB_TO_XYZ (Fin 1, Fin 1, Fin 1))) 0,
                item (xyz_to_xyy (numpy_dot RGB_TO_XYZ (Fin 1, Fin 1, Fin 1))) 1,
                L)).
  { rewrite rgb_to_xyz_decode, Hdecode.
    replace (Fin d, Fin d, Fin d)
      with (scale (Fin d) (Fin 1, Fin 1, Fin 1))
      by (unfold scale, vec3_map; cbn [item Float.mul];
          now rewrite Qcmult_1_r).
    destruct (numpy_dot_scale d 1 1 1) as (X & Y & Z & H & Hs).
    rewrite Hs, H, (xyz_to_xyy_scale d X Y Z Hpos). eexists. reflexivity. }
  destruct Hxyy as [L Hxyy].
  assert (Hsolved : xyy_to_rgb_mixing_ratio led_primaries
                      (xyz_to_xyy (rgb_to_xyz pow c c c))
                    = Returns white_ratio).
  { rewrite Hxyy. apply solved_unit_grey. }
  split; [|split; [|split]].
  - rewrite Hxyy. cbn [item]. by_evaluation.
  - rewrite Hxyy. cbn [item]. by_evaluation.
  - exact Hsolved.
  - unfold main. rewrite Hsolved. cbn [bind]. unfold gamut_gate.
    replace (any_negative white_ratio) with false by (vm_compute; reflexivity).
    reflexivity.
Qed.

(** The channel value 5 decodes on the linear branch, to 100 * (5 / 255)
    / 12.92 whatever [pow] is; the grey (5, 5, 5) ends as white does. *)
Lemma greys_end_as_white_witness :
  decode pow_at_one 5 = Fin (Q2Qc (5 # 255) / Q2Qc 12.92 * Q2Qc 100)
  /\ 0 < Q2Qc (5 # 255) / Q2Qc 12.92 * Q2Qc 100
  /\ xyy_to_rgb_mixing_ratio led_primaries
       (xyz_to_xyy (rgb_to_xyz pow_at_one 5 5 5))
     = Returns white_ratio
  /\ main pow_at_one 5 5 5 = choose_luminous_intensities white_ratio.
Proof.
  assert (Hd : decode pow_at_one 5
               = Fin (Q2Qc (5 # 255) / Q2Qc 12.92 * Q2Qc 100))
    by by_evaluation.
  assert (Hpos : 0 < Q2Qc (5 # 255) / Q2Qc 12.92 * Q2Qc 100)
    by by_evaluation.
  split; [exact Hd | split; [exact Hpos |]].
  exact (proj2 (proj2 (greys_end_as_white pow_at_one 5 _ Hd Hpos))).
Defined.

(** ** The colour on the command line *)

Lemma hex_digit_range (c : ascii) (v : Z) :
  hex_digit c = Some v -> (0 <= v <= 15)%Z.
Proof.
  unfold hex_digit.
  repeat match goal with
         | |- context [if ?b then _ else _] => destruct b eqn:?
         end; intros [= <-];
  repeat match goal with
         | H : (_ && _)%bool = true |- _ => apply andb_prop in H; destruct H
         | H : (_ <=? _)%Z = true |- _ => apply Z.leb_le in H
         end; lia.
Qed.

Lemma unhexlify_pairs_spec (s : string) :
  (forall bytes, unhexlify_pairs s = Some bytes ->
     String.length s = (2 * List.length bytes)%nat
     /\ all_hex s = true
     /\ Forall (fun v => (0 <= v <= 255)%Z) bytes)
  /\ (forall c bytes, unhexlify_pairs (String c s) = Some bytes ->
        String.length (String c s) = (2 * List.length bytes)%nat
        /\ all_hex (String c s) = true
        /\ Forall (fun v => (0 <= v <= 255)%Z) bytes).
Proof.
  induction s as [| a s [IH1 IH2]].
  - split.
    + intros bytes [= <-]. repeat split. constructor.
    + intros c bytes H. discriminate H.
  - split; [exact (IH2 a)|].
    intros c bytes H.
    unfold unhexlify_pairs in H; fold unhexlify_pairs in H.
    destruct (hex_digit c) as [t|] eqn:Ht; [|discriminate].
    destruct (hex_digit a) as [b|] eqn:Hb; [|discriminate].
    destruct (unhexlify_pairs s) as [rest|] eqn:Hr; [|discriminate].
    injection H as <-.
    destruct (IH1 rest eq_refl) as (Hlen & Hhex & Hrange).
    pose proof (hex_digit_range _ _ Ht) as Ht'.
    pose proof (hex_digit_range _ _ Hb) as Hb'.
    repeat split.
    + cbn [String.length List.length]. lia.
    + cbn [all_hex]. now rewrite Ht, Hb.
    + assert (Hv : (0 <= 16 * t + b <= 255)%Z) by lia.
      constructor; [exact Hv | exact Hrange].
Qed.

Lemma unhexlify_pairs_total (s : string) :
  (Nat.even (String.length s) = true -> all_hex s = true ->
   exists bytes, unhexlify_pairs s = Some bytes)
  /\ (forall c, Nat.even (String.length (String c s)) = true ->
        all_hex (String c s) = true ->
        exists bytes, unhexlify_pairs (String c s) = Some bytes).
Proof.
  induction s as [| a s [IH1 IH2]].
  - split.
    + intros _ _. now exists [].
    + intros c H. discriminate H.
  - split; [exact (IH2 a)|].
    intros c Heven Hhex. cbn [all_hex] in Hhex.
    destruct (hex_digit c) as [t|] eqn:Ht; [|discriminate].
    destruct (hex_digit a) as [b|] eqn:Hb; [|discriminate].
    destruct IH1 as [rest Hrest]; [exact Heven | exact Hhex |].
    exists ((16 * t + b)%Z :: rest).
    unfold unhexlify_pairs; fold unhexlify_pairs.
    now rewrite Ht, Hb, Hrest.
Qed.

Lemma unhexlify_pairs_not_hex (s : string) :
  all_hex s = false -> unhexlify_pairs s = None.
Proof.
  intros H. destruct (unhexlify_pairs s) as [bytes|] eqn:E; [|reflexivity].
  apply (proj1 (unhexlify_pairs_spec s)) in E. destruct E as (_ & E & _).
  congruence.
Qed.

(** X12.  What [main] makes of its argument.  A string of odd length, or
    with a character that is no hexadecimal digit, ends in [TypeError]; a
    string of hexadecimal digits of an even length other than 6 ends in
    [struct.error]; six hexadecimal digits give three channel values, each
    in 0 .. 255. *)
Theorem parse_color_cases (s : string) :
  (Nat.odd (String.length s) = true \/ all_hex s = false ->
   parse_color s = inl TypeError)
  /\ (Nat.odd (String.length s) = false -> all_hex s = true ->
      String.length s <> 6%nat -> parse_color s = inl struct_error)
  /\ (String.length s = 6%nat -> all_hex s = true ->
      exists red green blue : Z,
        parse_color s = inr (red, green, blue)
        /\ (0 <= red <= 255)%Z /\ (0 <= green <= 255)%Z
        /\ (0 <= blue <= 255)%Z).
Proof.
  unfold parse_color, unhexlify. split; [|split].
  - intros [Hodd | Hhex].
    + now rewrite Hodd.
    + destruct (Nat.odd (String.length s)); [reflexivity|].
      now rewrite unhexlify_pairs_not_hex.
  - intros Hodd Hhex Hlen. rewrite Hodd.
    destruct (proj1 (unhexlify_pairs_total s)) as [bytes Hb];
      [now rewrite <- Nat.negb_odd, Hodd | exact Hhex |].
    rewrite Hb. apply (proj1 (unhexlify_pairs_spec s)) in Hb.
    destruct Hb as (Hl & _ & _).
    destruct bytes as [| r [| g [| b [| ? ?]]]]; try reflexivity.
    cbn [List.length] in Hl. lia.
  - intros Hlen Hhex.
    assert (Hodd : Nat.odd (String.length s) = false) by now rewrite Hlen.
    rewrite Hodd.
    destruct (proj1 (unhexlify_pairs_total s)) as [bytes Hb];
      [now rewrite Hlen | exact Hhex |].
    rewrite Hb. apply (proj1 (unhexlify_pairs_spec s)) in Hb.
    destruct Hb as (Hl & _ & Hrange).
    destruct bytes as [| r [| g [| b [| ? ?]]]];
      cbn [List.length] in Hl; try lia.
    exists r, g, b.
    inversion Hrange as [| ? ? Hr Hrange']; subst.
    inversion Hrange' as [| ? ? Hg Hrange'']; subst.
    inversion Hrange'' as [| ? ? Hbl _]; subst.
    now repeat split.
Qed.

(** The input that the docstring of the module proposes, five F, is
    rejected; six F are white. *)
Lemma parse_color_cases_witness :
  parse_color "FFFFF" = inl TypeError
  /\ parse_color "FFFFFFFF" = inl struct_error
  /\ exists red green blue : Z,
       parse_color "FFFFFF" = inr (red, green, blue)
       /\ (0 <= red <= 255)%Z /\ (0 <= green <= 255)%Z
       /\ (0 <= blue <= 255)%Z.
Proof.
  split; [|split].
  - apply (proj1 (parse_color_cases "FFFFF")). left. reflexivity.
  - apply (proj1 (proj2 (parse_color_cases "FFFFFFFF")));
      [reflexivity | reflexivity | discriminate].
  - apply (proj2 (proj2 (parse_color_cases "FFFFFF"))); reflexivity.
Defined.

Lemma hex_digit_hex_char (capital : bool) (v : Z) :
  (0 <= v <= 15)%Z -> hex_digit (hex_char capital v) = Some v.
Proof.
  intros Hv.
  assert (Hcases : In v [0; 1; 2; 3; 4; 5; 6; 7; 8; 9; 10; 11; 12; 13; 14; 15]%Z).
  { cbn [In]. lia. }
  cbn [In] in Hcases.
  destruct capital;
    repeat (destruct Hcases as [<- | Hcases]; [reflexivity|]);
    contradiction.
Qed.

Lemma unhexlify_hex_byte (capital : bool) (v : Z) (rest : string) :
  (0 <= v <= 255)%Z ->
  unhexlify_pairs (hex_byte capital v rest)
  = match unhexlify_pairs rest with
    | Some bytes => Some (v :: bytes)
    | None => None
    end.
Proof.
  intros Hv. unfold hex_byte.
  unfold unhexlify_pairs; fold unhexlify_pairs.
  rewrite !hex_digit_hex_char
    by (Z.to_euclidean_division_equations; lia).
  destruct (unhexlify_pairs rest); [|reflexivity].
  do 2 f_equal. Z.to_euclidean_division_equations; lia.
Qed.

(** X13.  Writing three channel values in 0 .. 255 as six hexadecimal
    digits, in small or in capital letters, and handing them to [main]
    gives the three values back. *)
Theorem parse_hex_color (capital : bool) (red green blue : Z)
    (Hr : (0 <= red <= 255)%Z) (Hg : (0 <= green <= 255)%Z)
    (Hb : (0 <= blue <= 255)%Z) :
  parse_color (hex_color capital red green blue) = inr (red, green, blue).
Proof.
  unfold parse_color, unhexlify, hex_color.
  replace (Nat.odd _) with false by reflexivity.
  now rewrite !unhexlify_hex_byte by assumption.
Qed.

Lemma parse_hex_color_witness :
  hex_color true 255 128 10 = "FF800A"%string
  /\ hex_color false 255 128 10 = "ff800a"%string
  /\ parse_color (hex_color true 255 128 10) = inr (255, 128, 10)%Z
  /\ parse_color (hex_color false 255 128 10) = inr (255, 128, 10)%Z.
Proof.
  split; [reflexivity | split; [reflexivity | split]];
    apply parse_hex_color; lia.
Defined.

(** ** Every colour but black has a chromaticity *)




(** ** NaN *)









Lemma py_div_nan (b : pyfloat) :
  NaN /! b = Returns NaN \/ NaN /! b = Raises ZeroDivisionError.
Proof. unfold py_div. destruct (Float.is_zero b); [now right | now left]. Qed.



(** ** What the report prints *)

(** X16.  The relative intensities of the report, before they are
    formatted: on a finite ratio with r + g + b <> 0 and r <> 0, red is at
    100 percent of its rating whatever the colour, green at
    (0.105 / 0.33) * 100 * g / r and blue at (0.105 / 0.2) * 100 * b / r. *)
Theorem relative_intensities (r g b : Qc)
    (Hsum : r + g + b <> 0) (Hr : r <> 0) :
  exists percentages intensities : vec3,
    choose_luminous_intensities (Fin r, Fin g, Fin b)
    = Returns (percentages, intensities)
    /\ relative_intensity_percent intensities
       = (Fin (Q2Qc 100),
          Fin (Q2Qc (350 # 11) * (g / r)),
          Fin (Q2Qc 52.5 * (b / r))).
Proof.
  assert (Hgreen : red_rating / (r / (r + g + b)) * (g / (r + g + b))
                   / Q2Qc 0.330 * Q2Qc (inject_Z 100)
                   = Q2Qc (350 # 11) * (g / r)).
  { replace (Q2Qc (350 # 11))
      with (red_rating / Q2Qc 0.330 * Q2Qc (inject_Z 100)) by by_evaluation.
    field. repeat split; try assumption; by_evaluation. }
  assert (Hblue : red_rating / (r / (r + g + b)) * (b / (r + g + b))
                  / Q2Qc 0.200 * Q2Qc (inject_Z 100)
                  = Q2Qc 52.5 * (b / r)).
  { replace (Q2Qc 52.5)
      with (red_rating / Q2Qc 0.200 * Q2Qc (inject_Z 100)) by by_evaluation.
    field. repeat split; try assumption; by_evaluation. }
  assert (Hred : (RED_LUMINOUS_INTENSITY / RED_LUMINOUS_INTENSITY
                  * Float.of_Z 100)%F = Fin (Q2Qc 100)) by by_evaluation.
  do 2 eexists. split; [now apply calibrator_returns|].
  unfold relative_intensity_percent. cbn [item]. rewrite Hred.
  unfold GREEN_LUMINOUS_INTENSITY, BLUE_LUMINOUS_INTENSITY, lit, Float.of_Z.
  rewrite !div_fin by reflexivity. cbn [Float.mul].
  now rewrite Hgreen, Hblue.
Qed.

Lemma relative_intensities_witness :
  exists percentages intensities : vec3,
    choose_luminous_intensities (Fin (Q2Qc 1), Fin (Q2Qc 10), Fin (Q2Qc 1))
    = Returns (percentages, intensities)
    /\ relative_intensity_percent intensities
       = (Fin (Q2Qc 100),
          Fin (Q2Qc (350 # 11) * (Q2Qc 10 / Q2Qc 1)),
          Fin (Q2Qc 52.5 * (Q2Qc 1 / Q2Qc 1))).
Proof.
  apply relative_intensities; by_evaluation.
Defined.
